(** * udsoncan: the UDS message model (udsoncan/__init__.py)

    A shallow embedding of the request and response framers, the response
    code taxonomy, the DID codec factory and the DTC status model of
    [udsoncan/__init__.py], followed by the properties established about
    them.

    Python objects become records, [None]-able attributes become [option]s,
    a [bytes] object is a list of [byte]s, Python integers are [Z], and a
    function that may raise returns a [result]. *)

From Stdlib Require Import ZArith List String Ascii Bool Lia.
From Stdlib Require Import Strings.Byte DecimalString.
Import ListNotations.
Local Open Scope string_scope.
Local Open Scope list_scope.
Local Open Scope Z_scope.

(* ================================================================== *)
(** * Part I: definitions                                              *)
(* ================================================================== *)

(** ** Python runtime: exceptions, values, bytes *)

Module Py.

(** The exceptions the modelled functions can raise. *)
Inductive exn : Type :=
| ValueError (msg : string)
| TypeError (msg : string)
| NameError (name : string)
| AttributeError (attr : string)
| IndexError (msg : string)
| StructError (msg : string).

(** Outcome of a call: a returned value or a raised exception. *)
Inductive result (A : Type) : Type :=
| Return (a : A)
| Raise (e : exn).
Arguments Return {A} a.
Arguments Raise {A} e.

Definition bind {A B : Type} (m : result A) (k : A -> result B) : result B :=
  match m with
  | Return a => k a
  | Raise e => Raise e
  end.

Definition raises {A : Type} (m : result A) : Prop :=
  exists e, m = Raise e.

(** A [bytes] object. *)
Definition bytes : Type := list byte.

(** The integer a [bytes] object yields when indexed. *)
Definition int_of_byte (b : byte) : Z := Z.of_N (Byte.to_N b).

(** [len(payload)] *)
Definition len {A : Type} (l : list A) : Z := Z.of_nat (List.length l).

(** [payload[i]] for a non-negative constant index [i]. *)
Definition item (payload : bytes) (i : nat) : result Z :=
  match nth_error payload i with
  | Some b => Return (int_of_byte b)
  | None => Raise (IndexError "index out of range")
  end.

(** [payload[i:]] for a non-negative constant index [i]. *)
Definition slice_from (payload : bytes) (i : nat) : bytes := skipn i payload.

(** [struct.pack("B", n)]: one unsigned byte, [struct.error] outside
    [0, 255]. *)
Definition struct_pack_B (n : Z) : result bytes :=
  if (0 <=? n) && (n <=? 255) then
    match Byte.of_N (Z.to_N n) with
    | Some b => Return [b]
    | None => Raise (StructError "ubyte format requires 0 <= number <= 255")
    end
  else Raise (StructError "ubyte format requires 0 <= number <= 255").

(** [str(n)] for an integer. *)
Definition str (n : Z) : string := NilZero.string_of_int (Z.to_int n).

End Py.
Import Py.

Notation "x <- m ;; k" := (Py.bind m (fun x => k))
  (at level 61, m at next level, right associativity).

(** ** The service registry (module [udsoncan.services]) *)

Module services.

(** Modelled from the spec: a service class of [udsoncan.services] (a
    subclass of [BaseService]); the module is not part of the sources at
    hand.  Section 3 of the specification describes a service descriptor
    by its numeric request id and response id, whether it uses a
    subfunction byte, whether its response carries data, and its name;
    these are the class methods the framers call. *)
Record BaseService : Type := {
  request_id : Z;
  response_id : Z;
  use_subfunction : bool;
  has_response_data : bool;
  get_name : string
}.

(** Modelled from the spec: an instance of a service class; the framers
    only read its class and [subfunction_id()]. *)
Record instance : Type := {
  class_of : BaseService;
  subfunction_id : option Z
}.

(** Modelled from the spec: the two lookups of the registry, by request id
    and by response id ([None] for an unknown id). *)
Record registry : Type := {
  cls_from_request_id : Z -> option BaseService;
  cls_from_response_id : Z -> option BaseService
}.

End services.

(** ** The DID codec objects *)

Module DidCodecObj.

(** The class [DidCodec] and its (direct) subclasses, by name. *)
Inductive cls : Type :=
| DidCodec
| Subclass (name : string).

(** A codec object: its class and its [packstr] attribute. *)
Record obj : Type := {
  class_of : cls;
  packstr : option string
}.

Definition cls_eqb (a b : cls) : bool :=
  match a, b with
  | DidCodec, DidCodec => true
  | Subclass n, Subclass m => String.eqb n m
  | _, _ => false
  end.

(** [issubclass(c, base)] in the flat hierarchy above. *)
Definition issubclass (c base : cls) : bool :=
  match base with
  | DidCodec => true
  | Subclass _ => cls_eqb c base
  end.

End DidCodecObj.

(** ** Dynamically typed arguments *)

(** The values the modelled functions receive for their dynamically typed
    parameters: [None], an [int], a [str], a [bytes] object, a service class
    or instance, a codec class or instance, any other class, and any other
    object. *)
Inductive pyval : Type :=
| PyNone
| PyInt (n : Z)
| PyStr (s : string)
| PyBytes (b : bytes)
| PyServiceClass (c : services.BaseService)
| PyServiceInstance (i : services.instance)
| PyCodecClass (c : DidCodecObj.cls)
| PyCodec (o : DidCodecObj.obj)
| PyOtherClass (name : string)
| PyOtherObject (name : string).

(** [x is not None] *)
Definition is_not_None (v : pyval) : bool :=
  match v with
  | PyNone => false
  | _ => true
  end.

(** ** Response codes ([Response.Code]) *)

Module Code.

Definition PositiveResponse : Z := 0.

(** The integer members of the class as [inspect.getmembers] lists them,
    sorted by name. *)
Definition members : list (string * Z) :=
  [ ("AccessDenied", 0x38 + 4);
    ("AuditTrailInformationNotAvailable", 0x38 + 8);
    ("BrakeSwitchNotClosed", 0x8F);
    ("BusyRepeatRequest", 0x21);
    ("CertificateNotAvailable", 0x38 + 7);
    ("ConditionsNotCorrect", 0x22);
    ("EngineIsNotRunning", 0x84);
    ("EngineIsRunning", 0x83);
    ("EngineRunTimeTooLow", 0x85);
    ("ExceedNumberOfAttempts", 0x36);
    ("FailurePreventsExecutionOfRequestedAction", 0x26);
    ("GeneralProgrammingFailure", 0x72);
    ("GeneralReject", 0x10);
    ("GeneralSecurityViolation", 0x38 + 0);
    ("ISOSAEReserved", 0x8E);
    ("IncorrectMessageLegthOrInvalidFormat", 0x13);
    ("InsufficientProtection", 0x38 + 2);
    ("InvalidKey", 0x35);
    ("NoResponseFromSubnetComponent", 0x25);
    ("PositiveResponse", PositiveResponse);
    ("RequestCorrectlyReceived_ResponsePending", 0x78);
    ("RequestOutOfRange", 0x31);
    ("RequestSequenceError", 0x24);
    ("RequiredTimeDelayNotExpired", 0x37);
    ("ResponseTooLong", 0x14);
    ("RpmTooHigh", 0x81);
    ("RpmTooLow", 0x82);
    ("SecuredLinkNotSupported", 0x38 + 6);
    ("SecuredModeRequested", 0x38 + 1);
    ("SecurityAccessDenied", 0x33);
    ("ServiceNotSupported", 0x11);
    ("ServiceNotSupportedInActiveSession", 0x7F);
    ("ShifterLeverNotInPark", 0x90);
    ("SubFunctionNotSupported", 0x12);
    ("SubFunctionNotSupportedInActiveSession", 0x7E);
    ("TemperatureTooHigh", 0x86);
    ("TemperatureTooLow", 0x87);
    ("TerminationWithSignatureRequested", 0x38 + 3);
    ("ThrottlePedalTooHigh", 0x8A);
    ("ThrottlePedalTooLow", 0x8B);
    ("TorqueConverterClutchLocked", 0x91);
    ("TransferDataSuspended", 0x71);
    ("TransmissionRangeNotInGear", 0x8D);
    ("TransmissionRangeNotInNeutral", 0x8C);
    ("UploadDownloadNotAccepted", 0x70);
    ("VehicleSpeedTooHigh", 0x88);
    ("VehicleSpeedTooLow", 0x89);
    ("VersionNotSupported", 0x38 + 5);
    ("VoltageTooHigh", 0x92);
    ("VoltageTooLow", 0x93);
    ("WrongBlockSequenceCounter", 0x73) ].

(** The loop shared by [get_name] and [is_negative]: the name of the first
    member whose value equals [given_id]. *)
Fixpoint first_member (given_id : Z) (ms : list (string * Z)) : option string :=
  match ms with
  | [] => None
  | (name, value) :: rest =>
      if value =? given_id then Some name else first_member given_id rest
  end.

(** [Response.Code.get_name] *)
Definition get_name (given_id : option Z) : string :=
  match given_id with
  | None => ""
  | Some c =>
      match first_member c members with
      | Some name => name
      | None => str c
      end
  end.

(** [Response.Code.is_negative] *)
Definition is_negative (given_id : option Z) : bool :=
  match given_id with
  | None => false
  | Some c =>
      if c =? PositiveResponse then false
      else
        match first_member c members with
        | Some _ => true
        | None => false
        end
  end.

(** [c] is the value of a named constant of the class. *)
Definition registered (c : Z) : Prop :=
  exists name, In (name, c) members.

End Code.

(** ** Responses ([class Response]) *)

Module Response.

(** What the attribute [service] of a response holds when it is not
    [None]: the constructor stores its argument as it is, a service class
    or a service instance. *)
Inductive service_ref : Type :=
| OfClass (c : services.BaseService)
| OfInstance (i : services.instance).

Definition cls (s : service_ref) : services.BaseService :=
  match s with
  | OfClass c => c
  | OfInstance i => services.class_of i
  end.

Record t : Type := {
  service : option service_ref;
  positive : bool;
  code : option Z;
  code_name : string;
  valid : bool;
  invalid_reason : string;
  data : option bytes
}.

Definition set_service (r : t) (v : option service_ref) : t :=
  {| service := v; positive := positive r; code := code r;
     code_name := code_name r; valid := valid r;
     invalid_reason := invalid_reason r; data := data r |}.

Definition set_positive (r : t) (v : bool) : t :=
  {| service := service r; positive := v; code := code r;
     code_name := code_name r; valid := valid r;
     invalid_reason := invalid_reason r; data := data r |}.

Definition set_code (r : t) (v : option Z) : t :=
  {| service := service r; positive := positive r; code := v;
     code_name := code_name r; valid := valid r;
     invalid_reason := invalid_reason r; data := data r |}.

Definition set_code_name (r : t) (v : string) : t :=
  {| service := service r; positive := positive r; code := code r;
     code_name := v; valid := valid r;
     invalid_reason := invalid_reason r; data := data r |}.

Definition set_valid (r : t) (v : bool) : t :=
  {| service := service r; positive := positive r; code := code r;
     code_name := code_name r; valid := v;
     invalid_reason := invalid_reason r; data := data r |}.

Definition set_invalid_reason (r : t) (v : string) : t :=
  {| service := service r; positive := positive r; code := code r;
     code_name := code_name r; valid := valid r;
     invalid_reason := v; data := data r |}.

Definition set_data (r : t) (v : option bytes) : t :=
  {| service := service r; positive := positive r; code := code r;
     code_name := code_name r; valid := valid r;
     invalid_reason := invalid_reason r; data := v |}.

(** [Response.__init__(service, code, data)] *)
Definition init (service_arg code_arg data_arg : pyval) : result t :=
  (* the service is None, a service instance or a service class *)
  svc <- match service_arg with
         | PyNone => Return None
         | PyServiceInstance i => Return (Some (OfInstance i))
         | PyServiceClass c => Return (Some (OfClass c))
         | _ => Raise (ValueError "Given service must be a service class or instance")
         end ;;
  (* the defaults; [self.service = service] keeps the argument itself *)
  let self := {| service := svc; positive := false; code := None;
                 code_name := ""; valid := false;
                 invalid_reason := "Object not initialized";
                 data := None |} in
  (* if data is not None: ... *)
  d <- (if is_not_None data_arg then
          if match service self with
             | Some s => negb (services.has_response_data (cls s))
             | None => false
             end
          then Raise (ValueError "This service should not have any data in its response.")
          else
            match data_arg with
            | PyBytes b => Return (Some b)
            | _ => Raise (ValueError "Given data must be a valid bytes object")
            end
        else Return None) ;;
  let self := set_data self d in
  (* if code is not None: ... *)
  self <- match code_arg with
          | PyNone => Return self
          | PyInt c =>
              if (c <? 0) || (c >? 0xFF) then
                Raise (ValueError "Response code must be an integer between 0 and 0xFF")
              else
                let self := set_code self (Some c) in
                let self := set_code_name self (Code.get_name (Some c)) in
                Return (if negb (Code.is_negative (Some c))
                        then set_positive self true else self)
          | _ => Raise (ValueError "Response code must be a valid integer")
          end ;;
  (* if self.service is not None and self.code is not None: ... *)
  Return (match service self, code self with
          | Some _, Some _ => set_invalid_reason (set_valid self true) ""
          | _, _ => self
          end).

(** [Response.get_payload] *)
Definition get_payload (self : t) : result bytes :=
  (* isinstance / issubclass on self.service *)
  s <- match service self with
       | Some s => Return s
       | None => Raise (TypeError "issubclass() arg 1 must be a class")
       end ;;
  (* isinstance(self.code, int) *)
  c <- match code self with
       | Some c => Return c
       | None => Raise (ValueError "Cannot make payload from response object. Given response code is not a valid integer")
       end ;;
  payload <- struct_pack_B (services.response_id (cls s)) ;;
  let payload := if negb (positive self) then payload ++ [x7f] else payload in
  payload <- (if negb (positive self)
              then packed <- struct_pack_B c ;; Return (payload ++ packed)
              else Return payload) ;;
  Return (match data self with
          | Some d =>
              if services.has_response_data (cls s) then payload ++ d else payload
          | None => payload
          end).

(** [Response.from_payload] *)
Definition from_payload (reg : services.registry) (payload : bytes) : result t :=
  response <- init PyNone PyNone PyNone ;;
  if 1 <=? len payload then
    b0 <- item payload 0 ;;
    let response :=
      set_service response
        (option_map OfClass (services.cls_from_response_id reg b0)) in
    match service response with
    | None =>
        let response := set_valid response false in
        Return (set_invalid_reason response "Payload first byte is not a know service.")
    | Some s =>
        if 2 <=? len payload then
          b1 <- item payload 1 ;;
          step <- (if negb (b1 =? 0x7F) then
                     let response := set_valid response true in
                     let response := set_code response (Some Code.PositiveResponse) in
                     let response :=
                       set_code_name response (Code.get_name (Some Code.PositiveResponse)) in
                     Return (1%nat, set_positive response true)
                   else
                     let response := set_positive response false in
                     if 3 <=? len payload then
                       b2 <- item payload 2 ;;
                       let response := set_code response (Some b2) in
                       let response :=
                         set_code_name response (Code.get_name (code response)) in
                       Return (3%nat, set_valid response true)
                     else
                       let response := set_valid response false in
                       Return (3%nat,
                               set_invalid_reason response
                                 "Incomplete invalid response code (7Fxx)")) ;;
          let '(data_start, response) := step in
          Return (if Z.of_nat data_start <? len payload
                  then set_data response (Some (slice_from payload data_start))
                  else response)
        else if services.has_response_data (cls s) then
          let response := set_valid response false in
          Return (set_invalid_reason response
                    "Payload must be at least 2 bytes long (service and response)")
        else
          let response := set_valid response true in
          let response := set_code response (Some Code.PositiveResponse) in
          let response :=
            set_code_name response (Code.get_name (Some Code.PositiveResponse)) in
          Return (set_positive response true)
    end
  else
    let response := set_valid response false in
    Return (set_invalid_reason response
              "Payload must be at least 2 bytes long (service and response)").

End Response.

(** ** Requests ([class Request]) *)

Module Request.

(** An attribute of an object: the constructor leaves [service] and
    [subfunction] unassigned on one of its paths, and reading an
    unassigned attribute raises [AttributeError]. *)
Inductive attribute (A : Type) : Type :=
| Unassigned
| Assigned (a : A).
Arguments Unassigned {A}.
Arguments Assigned {A} a.

(** What the attribute [data] holds when it is not [None]: the
    constructor accepts a [str], [from_payload] stores a [bytes] slice. *)
Inductive payload_data : Type :=
| OfStr (s : string)
| OfBytes (b : bytes).

Record t : Type := {
  service : attribute (option services.BaseService);
  subfunction : attribute (option Z);
  suppress_positive_response : bool;
  data : option payload_data
}.

Definition set_service (r : t) (v : option services.BaseService) : t :=
  {| service := Assigned v; subfunction := subfunction r;
     suppress_positive_response := suppress_positive_response r;
     data := data r |}.

Definition set_subfunction (r : t) (v : option Z) : t :=
  {| service := service r; subfunction := Assigned v;
     suppress_positive_response := suppress_positive_response r;
     data := data r |}.

Definition set_suppress_positive_response (r : t) (v : bool) : t :=
  {| service := service r; subfunction := subfunction r;
     suppress_positive_response := v; data := data r |}.

Definition set_data (r : t) (v : option payload_data) : t :=
  {| service := service r; subfunction := subfunction r;
     suppress_positive_response := suppress_positive_response r;
     data := v |}.

(** [self.x] *)
Definition read {A : Type} (name : string) (a : attribute A) : result A :=
  match a with
  | Assigned v => Return v
  | Unassigned => Raise (AttributeError name)
  end.

(** [Request.__init__(service, subfunction, suppress_positive_response, data)] *)
Definition init (service_arg subfunction_arg : pyval)
    (suppress_arg : bool) (data_arg : pyval) : result t :=
  attrs <- match service_arg with
           | PyNone => Return (Assigned None, Assigned None)
           | PyServiceInstance i =>
               Return (Assigned (Some (services.class_of i)),
                       Assigned (services.subfunction_id i))
           | PyServiceClass c =>
               match subfunction_arg with
               | PyNone => Return (Unassigned, Unassigned)
               | PyInt n => Return (Assigned (Some c), Assigned (Some n))
               | _ => Raise (ValueError "Given subfunction must be a valid integer")
               end
           | _ => Raise (ValueError "Given service must be a service class or instance")
           end ;;
  d <- match data_arg with
       | PyNone => Return None
       | PyStr s => Return (Some (OfStr s))
       | _ => Raise (ValueError "data must be a valid string")
       end ;;
  Return {| service := fst attrs; subfunction := snd attrs;
            suppress_positive_response := suppress_arg; data := d |}.

(** [Request.get_payload] *)
Definition get_payload (self : t) : result bytes :=
  (* issubclass(self.service, services.BaseService) *)
  s <- read "service" (service self) ;;
  s <- match s with
       | Some c => Return c
       | None => Raise (TypeError "issubclass() arg 1 must be a class")
       end ;;
  (* self.service.use_subfunction() and not isinstance(self.subfunction, int) *)
  _ <- (if services.use_subfunction s then
          sf <- read "subfunction" (subfunction self) ;;
          match sf with
          | Some _ => Return tt
          | None => Raise (ValueError "Cannot generate a payload. Given subfunction is not a valid integer")
          end
        else Return tt) ;;
  let requestid := services.request_id s in
  payload <- struct_pack_B requestid ;;
  payload <- (if services.use_subfunction s then
                sf <- read "subfunction" (subfunction self) ;;
                match sf with
                | Some sub =>
                    let sub := if suppress_positive_response self
                               then Z.lor sub 0x80 else sub in
                    packed <- struct_pack_B sub ;;
                    Return (payload ++ packed)
                | None => Raise (TypeError "unsupported operand type(s) for |=")
                end
              else Return payload) ;;
  match data self with
  | Some (OfBytes d) => Return (payload ++ d)
  | Some (OfStr _) => Raise (TypeError "can't concat str to bytes")
  | None => Return payload
  end.

(** [Request.from_payload] *)
Definition from_payload (reg : services.registry) (payload : bytes) : result t :=
  req <- init PyNone PyNone false PyNone ;;
  if 1 <=? len payload then
    b0 <- item payload 0 ;;
    let req := set_service req (services.cls_from_request_id reg b0) in
    match services.cls_from_request_id reg b0 with
    | Some s =>
        let offset := 0%nat in
        step <- (if services.use_subfunction s then
                   let offset := (offset + 1)%nat in
                   if Z.of_nat (offset + 1) <=? len payload then
                     b1 <- item payload 1 ;;
                     let req := set_subfunction req (Some (Z.land b1 0x7F)) in
                     b1 <- item payload 1 ;;
                     Return (offset,
                             set_suppress_positive_response req
                               (if Z.land b1 0x80 >? 0 then true else false))
                   else Return (offset, req)
                 else Return (offset, req)) ;;
        let '(offset, req) := step in
        Return (if Z.of_nat (offset + 1) <? len payload
                then set_data req (Some (OfBytes (slice_from payload (offset + 1))))
                else req)
    | None => Return req
    end
  else Return req.

End Request.

(** ** DID codecs ([class DidCodec]) *)

Module DidCodec.
Import DidCodecObj.

(** [DidCodec.__init__(packstr)], also the constructor a subclass
    inherits. *)
Definition init (c : cls) (packstr_arg : option string) : obj :=
  {| class_of := c; packstr := packstr_arg |}.

(** [isinstance(didconfig, cls)] *)
Definition isinstance (didconfig : pyval) (c : cls) : bool :=
  match didconfig with
  | PyCodec o => issubclass (class_of o) c
  | _ => false
  end.

(** [inspect.isclass(didconfig) and issubclass(didconfig, cls)] *)
Definition is_subclass_of (didconfig : pyval) (c : cls) : bool :=
  match didconfig with
  | PyCodecClass d => issubclass d c
  | _ => false
  end.

(** [didconfig()]: calling a codec class with no arguments builds an
    object of that class through the constructor it inherits. *)
Definition call (didconfig : pyval) : result pyval :=
  match didconfig with
  | PyCodecClass d => Return (PyCodec (init d None))
  | _ => Raise (TypeError "object is not callable")
  end.

(** [isinstance(didconfig, str)] *)
Definition is_str (didconfig : pyval) : option string :=
  match didconfig with
  | PyStr s => Some s
  | _ => None
  end.

(** [DidCodec.from_config], called on the class [c]; a function body that
    ends without a [return] returns [None]. *)
Definition from_config (c : cls) (didconfig : pyval) : result pyval :=
  if isinstance didconfig c then Return didconfig
  else if is_subclass_of didconfig c then call didconfig
  else
    match is_str didconfig with
    | Some s => Return (PyCodec (init c (Some s)))
    | None => Return PyNone
    end.

(** The shapes [from_config] recognises. *)
Definition recognised (c : cls) (didconfig : pyval) : bool :=
  isinstance didconfig c || is_subclass_of didconfig c ||
  match is_str didconfig with Some _ => true | None => false end.

End DidCodec.

(** ** Diagnostic trouble codes ([class Dtc]) *)

Module Dtc.

Record t : Type := {
  id : Z;
  testFailed : bool;
  testFailedThisOperationCycle : bool;
  pending : bool;
  confirmed : bool;
  testNotCompletedSinceLastClear : bool;
  testFailedSinceLastClear : bool;
  testNotCompletedThisOperationCycle : bool;
  warningIndicatorRequested : bool
}.

(** Reading a name that is neither a local variable of the function nor a
    global of the module. *)
Definition unbound {A : Type} (name : string) : result A :=
  Raise (NameError name).

(** [Dtc.__init__(dtc)]: the first statement reads [dtcid], the parameter
    is called [dtc]. *)
Definition init (dtc : Z) : result t :=
  dtcid <- unbound "dtcid" ;;
  Return {| id := dtcid;
            testFailed := false;
            testFailedThisOperationCycle := false;
            pending := false;
            confirmed := false;
            testNotCompletedSinceLastClear := false;
            testFailedSinceLastClear := false;
            testNotCompletedThisOperationCycle := false;
            warningIndicatorRequested := false |}.

(** The local variable [byte] at the end of the body of the [status]
    getter. *)
Definition status_byte (self : t) : Z :=
  let byte := 0 in
  let byte := Z.lor byte (if testFailed self then 0x1 else 0) in
  let byte := Z.lor byte (if testFailedThisOperationCycle self then 0x2 else 0) in
  let byte := Z.lor byte (if pending self then 0x4 else 0) in
  let byte := Z.lor byte (if confirmed self then 0x8 else 0) in
  let byte := Z.lor byte (if testNotCompletedSinceLastClear self then 0x10 else 0) in
  let byte := Z.lor byte (if testFailedSinceLastClear self then 0x20 else 0) in
  let byte := Z.lor byte (if testNotCompletedThisOperationCycle self then 0x40 else 0) in
  let byte := Z.lor byte (if warningIndicatorRequested self then 0x80 else 0) in
  byte.

(** The [status] property getter: it computes [byte] and ends without a
    [return], so the value read is [None]. *)
Definition status (self : t) : option Z :=
  let byte := status_byte self in
  None.

(** The [status] property setter. *)
Definition set_status (self : t) (byte : Z) : t :=
  {| id := id self;
     testFailed := if Z.land byte 0x01 >? 0 then true else false;
     testFailedThisOperationCycle := if Z.land byte 0x02 >? 0 then true else false;
     pending := if Z.land byte 0x04 >? 0 then true else false;
     confirmed := if Z.land byte 0x08 >? 0 then true else false;
     testNotCompletedSinceLastClear := if Z.land byte 0x10 >? 0 then true else false;
     testFailedSinceLastClear := if Z.land byte 0x20 >? 0 then true else false;
     testNotCompletedThisOperationCycle := if Z.land byte 0x40 >? 0 then true else false;
     warningIndicatorRequested := if Z.land byte 0x80 >? 0 then true else false |}.

(** A value bound to a parameter of [updateStatus]: [None], a boolean, or
    a [Dtc] object. *)
Inductive arg : Type :=
| ArgNone
| ArgBool (b : bool)
| ArgObject (d : t).

Definition is_not_None (a : arg) : bool :=
  match a with
  | ArgNone => false
  | _ => true
  end.

(** The statement [self.x = v] inside [updateStatus]: [self] is not a
    parameter of the function and not a global of the module, so resolving
    the target raises [NameError] and nothing is stored. *)
Definition assign_self_attr (x : string) (v : arg) : result unit :=
  self <- @unbound t "self" ;;
  Return tt.

(** [Dtc.updateStatus], the function as defined: seven parameters, all
    defaulting to [None]; [self] and [testNotCompletedThisOperationCycle]
    are not among them. *)
Definition updateStatus
    (testFailed testFailedThisOperationCycle pending confirmed
     testNotCompletedSinceLastClear testFailedSinceLastClear
     warningIndicatorRequested : arg) : result unit :=
  _ <- (if is_not_None testFailed
        then assign_self_attr "testFailed" testFailed else Return tt) ;;
  _ <- (if is_not_None testFailedThisOperationCycle
        then assign_self_attr "testFailedThisOperationCycle" testFailedThisOperationCycle
        else Return tt) ;;
  _ <- (if is_not_None pending
        then assign_self_attr "pending" pending else Return tt) ;;
  _ <- (if is_not_None confirmed
        then assign_self_attr "confirmed" confirmed else Return tt) ;;
  _ <- (if is_not_None testNotCompletedSinceLastClear
        then assign_self_attr "testNotCompletedSinceLastClear" testNotCompletedSinceLastClear
        else Return tt) ;;
  _ <- (if is_not_None testFailedSinceLastClear
        then assign_self_attr "testFailedSinceLastClear" testFailedSinceLastClear
        else Return tt) ;;
  testNotCompletedThisOperationCycle <- @unbound arg "testNotCompletedThisOperationCycle" ;;
  _ <- (if is_not_None testNotCompletedThisOperationCycle
        then assign_self_attr "testNotCompletedThisOperationCycle" testNotCompletedThisOperationCycle
        else Return tt) ;;
  _ <- (if is_not_None warningIndicatorRequested
        then assign_self_attr "warningIndicatorRequested" warningIndicatorRequested
        else Return tt) ;;
  Return tt.

(** The status fields a caller supplies by keyword ([None]: not
    supplied). *)
Record kwargs : Type := {
  kw_testFailed : option bool;
  kw_testFailedThisOperationCycle : option bool;
  kw_pending : option bool;
  kw_confirmed : option bool;
  kw_testNotCompletedSinceLastClear : option bool;
  kw_testFailedSinceLastClear : option bool;
  kw_testNotCompletedThisOperationCycle : option bool;
  kw_warningIndicatorRequested : option bool
}.

Definition arg_of (v : option bool) : arg :=
  match v with
  | Some b => ArgBool b
  | None => ArgNone
  end.

(** The method call of [updateStatus] on [d] with keyword arguments [kw]: the object is passed as the
    first positional argument and so binds [testFailed]; a keyword that
    names no parameter, or one that names a parameter already bound, is a
    [TypeError]; the outcome is paired with the object after the call. *)
Definition call_updateStatus (d : t) (kw : kwargs) : result unit * t :=
  match kw_testNotCompletedThisOperationCycle kw, kw_testFailed kw with
  | Some _, _ =>
      (Raise (TypeError "updateStatus() got an unexpected keyword argument 'testNotCompletedThisOperationCycle'"), d)
  | None, Some _ =>
      (Raise (TypeError "updateStatus() got multiple values for argument 'testFailed'"), d)
  | None, None =>
      (updateStatus (ArgObject d)
         (arg_of (kw_testFailedThisOperationCycle kw))
         (arg_of (kw_pending kw))
         (arg_of (kw_confirmed kw))
         (arg_of (kw_testNotCompletedSinceLastClear kw))
         (arg_of (kw_testFailedSinceLastClear kw))
         (arg_of (kw_warningIndicatorRequested kw)),
       d)
  end.

(** The update the keyword arguments describe: every supplied field
    overwritten, every other field kept. *)
Definition updated (d : t) (kw : kwargs) : t :=
  let pick (v : option bool) (old : bool) :=
    match v with Some b => b | None => old end in
  {| id := id d;
     testFailed := pick (kw_testFailed kw) (testFailed d);
     testFailedThisOperationCycle :=
       pick (kw_testFailedThisOperationCycle kw) (testFailedThisOperationCycle d);
     pending := pick (kw_pending kw) (pending d);
     confirmed := pick (kw_confirmed kw) (confirmed d);
     testNotCompletedSinceLastClear :=
       pick (kw_testNotCompletedSinceLastClear kw) (testNotCompletedSinceLastClear d);
     testFailedSinceLastClear :=
       pick (kw_testFailedSinceLastClear kw) (testFailedSinceLastClear d);
     testNotCompletedThisOperationCycle :=
       pick (kw_testNotCompletedThisOperationCycle kw) (testNotCompletedThisOperationCycle d);
     warningIndicatorRequested :=
       pick (kw_warningIndicatorRequested kw) (warningIndicatorRequested d) |}.

End Dtc.

(** ** A small registry, for concrete runs *)

Module Demo.
Import services.

Definition ReadDataByIdentifier : BaseService :=
  {| request_id := 0x22; response_id := 0x62;
     use_subfunction := false; has_response_data := true;
     get_name := "ReadDataByIdentifier" |}.

Definition ECUReset : BaseService :=
  {| request_id := 0x11; response_id := 0x51;
     use_subfunction := true; has_response_data := true;
     get_name := "ECUReset" |}.

Definition TesterPresent : BaseService :=
  {| request_id := 0x3E; response_id := 0x7E;
     use_subfunction := true; has_response_data := false;
     get_name := "TesterPresent" |}.

Definition all : list BaseService :=
  [ReadDataByIdentifier; ECUReset; TesterPresent].

Definition registry : services.registry :=
  {| cls_from_request_id := fun n => find (fun s => request_id s =? n) all;
     cls_from_response_id := fun n => find (fun s => response_id s =? n) all |}.

End Demo.

(** ** Predicates used in the statements *)

(** The inverse of [int_of_byte] on [0, 255]. *)
Definition byte_of_int (n : Z) : byte :=
  match Byte.of_N (Z.to_N n) with
  | Some b => b
  | None => x00
  end.

(** The service a constructor argument names, when it is a service class or
    a service instance. *)
Definition as_service (v : pyval) : option Response.service_ref :=
  match v with
  | PyServiceClass c => Some (Response.OfClass c)
  | PyServiceInstance i => Some (Response.OfInstance i)
  | _ => None
  end.

(** The bytes a constructor argument holds, when it is a [bytes] object. *)
Definition as_bytes (d : pyval) : option bytes :=
  match d with
  | PyBytes b => Some b
  | _ => None
  end.

(** The data argument is absent, or a [bytes] object for a service that
    declares response data. *)
Definition data_permitted (s : services.BaseService) (d : pyval) : Prop :=
  d = PyNone \/ (exists b, d = PyBytes b) /\ services.has_response_data s = true.

(** The malformed payloads of a response: empty, unknown service id at byte
    0, a single byte for a service that declares response data, and the
    [0x7F] marker at byte 1 with nothing after it. *)
Definition malformed_response (reg : services.registry) (payload : bytes) : Prop :=
  payload = [] \/
  (exists b0 rest,
      payload = b0 :: rest /\
      services.cls_from_response_id reg (int_of_byte b0) = None) \/
  (exists b0 s,
      payload = [b0] /\
      services.cls_from_response_id reg (int_of_byte b0) = Some s /\
      services.has_response_data s = true) \/
  (exists b0, payload = [b0; x7f]).

(** The parsed response [r'] reproduces the service, the positive flag, the
    code and the data of [r]. *)
Definition reproduces (r r' : Response.t) : Prop :=
  Response.service r' = Response.service r /\
  Response.positive r' = Response.positive r /\
  Response.code r' = Response.code r /\
  Response.data r' = Response.data r.

(** Serialising [r] and parsing the payload gives back a response that
    reproduces [r]. *)
Definition Response_round_trips (reg : services.registry) (r : Response.t) : Prop :=
  exists payload r',
    Response.get_payload r = Return payload /\
    Response.from_payload reg payload = Return r' /\
    reproduces r r'.

(** The service class is resolvable in the registry: its response id is a
    byte and the registry maps it back to the class. *)
Definition resolvable_response (reg : services.registry) (s : services.BaseService) : Prop :=
  0 <= services.response_id s <= 0xFF /\
  services.cls_from_response_id reg (services.response_id s) = Some s.

(** The constructor arguments whose response survives the round trip: code
    0 with either no data for a service that declares none or non-empty
    data that does not start with [0x7F]; or a named negative code with no
    data or non-empty data. *)
Definition round_trip_condition (s : services.BaseService) (c : Z) (d : pyval) : Prop :=
  (c = 0 /\
   ((d = PyNone /\ services.has_response_data s = false) \/
    (exists b rest, d = PyBytes (b :: rest) /\ b <> x7f)))
  \/
  (Code.is_negative (Some c) = true /\
   (d = PyNone \/ exists b rest, d = PyBytes (b :: rest))).

(** The parsed request [r'] reproduces the service, the subfunction, the
    suppress flag and the data of [r]. *)
Definition Request_reproduces (r r' : Request.t) : Prop :=
  Request.service r' = Request.service r /\
  Request.subfunction r' = Request.subfunction r /\
  Request.suppress_positive_response r' = Request.suppress_positive_response r /\
  Request.data r' = Request.data r.

(** Serialising [r] and parsing the payload gives back a request that
    reproduces [r]. *)
Definition Request_round_trips (reg : services.registry) (r : Request.t) : Prop :=
  exists payload r',
    Request.get_payload r = Return payload /\
    Request.from_payload reg payload = Return r' /\
    Request_reproduces r r'.

(** The service class is registered: its request id is a byte and the
    registry maps it back to the class. *)
Definition resolvable_request (reg : services.registry) (s : services.BaseService) : Prop :=
  0 <= services.request_id s <= 0xFF /\
  services.cls_from_request_id reg (services.request_id s) = Some s.

(** The request is of the service class [s], with a subfunction that is a
    byte when the service uses one. *)
Definition Request_well_formed (s : services.BaseService) (r : Request.t) : Prop :=
  Request.service r = Request.Assigned (Some s) /\
  (services.use_subfunction s = true ->
   exists sub, Request.subfunction r = Request.Assigned (Some sub) /\
               0 <= sub <= 0xFF).

(** The requests that survive the round trip: when the service uses a
    subfunction it fits in seven bits; when it uses none the subfunction is
    [None] and the suppress flag is off; the data is absent or a non-empty
    [bytes] object. *)
Definition Request_round_trip_condition (s : services.BaseService) (r : Request.t) : Prop :=
  (if services.use_subfunction s then
     exists sub, Request.subfunction r = Request.Assigned (Some sub) /\
                 0 <= sub <= 0x7F
   else
     Request.subfunction r = Request.Assigned None /\
     Request.suppress_positive_response r = false) /\
  (Request.data r = None \/
   exists b rest, Request.data r = Some (Request.OfBytes (b :: rest))).

(** The data attribute [from_payload] stores for the bytes after the
    header. *)
Definition parsed_data (rest : bytes) : option Request.payload_data :=
  match rest with
  | [] => None
  | _ :: _ => Some (Request.OfBytes rest)
  end.

(** The byte that follows the request id for the subfunction [sub]. *)
Definition wire_subfunction (r : Request.t) (sub : Z) : Z :=
  if Request.suppress_positive_response r then Z.lor sub 0x80 else sub.

(** The bytes [get_payload] appends for the data attribute; a [str] cannot
    be appended to the [bytes] header. *)
Definition with_data (header : bytes) (d : option Request.payload_data) : result bytes :=
  match d with
  | Some (Request.OfBytes d) => Return (header ++ d)
  | Some (Request.OfStr _) => Raise (TypeError "can't concat str to bytes")
  | None => Return header
  end.

(** The first byte of a response payload of the service [s]. *)
Definition response_id_byte (s : services.BaseService) : byte :=
  byte_of_int (services.response_id s).

(** The first byte of a request payload of the service [s]. *)
Definition request_id_byte (s : services.BaseService) : byte :=
  byte_of_int (services.request_id s).

(** The response the constructor builds from the service class [s], the
    code [c] and the data [d]. *)
Definition built_response (s : services.BaseService) (c : Z) (d : option bytes)
  : Response.t :=
  {| Response.service := Some (Response.OfClass s);
     Response.positive := negb (Code.is_negative (Some c));
     Response.code := Some c;
     Response.code_name := Code.get_name (Some c);
     Response.valid := true;
     Response.invalid_reason := "";
     Response.data := d |}.

(** ** The remaining parts of the module *)

(** [Response.__len__]: the length of the payload, and 0 when
    [get_payload] raises (the bare [except] catches everything). *)
Definition Response_len (self : Response.t) : Z :=
  match Response.get_payload self with
  | Return payload => len payload
  | Raise _ => 0
  end.

(** [Request.__len__], written the same way. *)
Definition Request_len (self : Request.t) : Z :=
  match Request.get_payload self with
  | Return payload => len payload
  | Raise _ => 0
  end.

(** [class SecurityLevel] *)
Module SecurityLevel.

Record t : Type := { levelid : Z }.

(** [SecurityLevel.__init__(levelid)] *)
Definition init (levelid_arg : Z) : t :=
  {| levelid := Z.land levelid_arg 0xFE |}.

End SecurityLevel.

(** [class AddressAndLengthIdentifier] *)
Module AddressAndLengthIdentifier.

Definition addr_256B : Z := 1.
Definition addr_64KB : Z := 2.
Definition addr_16MB : Z := 3.
Definition addr_4GB : Z := 4.
Definition addr_1024GB : Z := 5.

Definition msize_256 : Z := 1.
Definition msize_64KB : Z := 2.
Definition msize_16MB : Z := 3.
Definition msize_4GB : Z := 4.

(** [AddressAndLengthIdentifier.make(size, addr)] *)
Definition make (size addr : pyval) : result Z :=
  match size, addr with
  | PyInt size, PyInt addr =>
      if (size <? 1) || (size >? 4) then
        Raise (ValueError "Size must ba an integer between 1 and 4")
      else if (addr <? 1) || (addr >? 5) then
        Raise (ValueError "Addr must ba an integer between 1 and 5")
      else Return (Z.lor (Z.shiftl size 4) addr)
  | _, _ => Raise (ValueError "Size and addr must be integers")
  end.

End AddressAndLengthIdentifier.

(** ** Predicates used in the further statements *)

(** The call raises a [ValueError]. *)
Definition raises_ValueError {A : Type} (m : result A) : Prop :=
  exists msg, m = Raise (ValueError msg).

(** The registry answers a response id only with a service class that has
    this response id. *)
Definition response_ids_sound (reg : services.registry) : Prop :=
  forall n s, services.cls_from_response_id reg n = Some s ->
              services.response_id s = n.

(** The registry answers a request id only with a service class that has
    this request id. *)
Definition request_ids_sound (reg : services.registry) : Prop :=
  forall n s, services.cls_from_request_id reg n = Some s ->
              services.request_id s = n.

(** The arguments [Response.__init__] accepts: the service is [None], a
    service class or a service instance; the data is [None], or a [bytes]
    object when the service is [None] or declares response data; the code
    is [None] or an integer of [0, 0xFF]. *)
Definition Response_init_accepts (service_arg code_arg data_arg : pyval) : bool :=
  match service_arg with
  | PyNone | PyServiceClass _ | PyServiceInstance _ => true
  | _ => false
  end
  && match data_arg with
     | PyNone => true
     | PyBytes _ =>
         match as_service service_arg with
         | Some s => services.has_response_data (Response.cls s)
         | None => true
         end
     | _ => false
     end
  && match code_arg with
     | PyNone => true
     | PyInt c => (0 <=? c) && (c <=? 0xFF)
     | _ => false
     end.

(** The arguments [Request.__init__] accepts: the service is [None], a
    service instance, or a service class with a subfunction that is [None]
    or an integer; the data is [None] or a [str]. *)
Definition Request_init_accepts (service_arg subfunction_arg data_arg : pyval) : bool :=
  match service_arg with
  | PyNone | PyServiceInstance _ => true
  | PyServiceClass _ =>
      match subfunction_arg with
      | PyNone | PyInt _ => true
      | _ => false
      end
  | _ => false
  end
  && match data_arg with
     | PyNone | PyStr _ => true
     | _ => false
     end.

(* ================================================================== *)
(** * Part II: properties                                              *)
(* ================================================================== *)

(** ** Bytes and lengths *)

Lemma int_of_byte_range (b : byte) : 0 <= int_of_byte b <= 255.
Proof.
  unfold int_of_byte. pose proof (Byte.to_N_bounded b). lia.
Qed.

Lemma byte_of_int_of_byte (b : byte) : byte_of_int (int_of_byte b) = b.
Proof.
  unfold byte_of_int, int_of_byte.
  rewrite N2Z.id, Byte.of_to_N. reflexivity.
Qed.

Lemma int_of_byte_inj (a b : byte) : int_of_byte a = int_of_byte b -> a = b.
Proof.
  intros H. rewrite <- (byte_of_int_of_byte a), <- (byte_of_int_of_byte b).
  now rewrite H.
Qed.

Lemma int_of_byte_of_int (n : Z) :
  0 <= n <= 255 -> int_of_byte (byte_of_int n) = n.
Proof.
  intros Hn. unfold byte_of_int, int_of_byte.
  destruct (Byte.of_N (Z.to_N n)) as [b|] eqn:E.
  - apply Byte.to_of_N in E. rewrite E. lia.
  - apply Byte.of_N_None_iff in E. lia.
Qed.

Lemma struct_pack_B_byte (n : Z) :
  0 <= n <= 255 -> struct_pack_B n = Return [byte_of_int n].
Proof.
  intros Hn. unfold struct_pack_B, byte_of_int.
  replace ((0 <=? n) && (n <=? 255)) with true
    by (symmetry; apply andb_true_iff; split; apply Z.leb_le; lia).
  destruct (Byte.of_N (Z.to_N n)) as [b|] eqn:E; [reflexivity|].
  apply Byte.of_N_None_iff in E. lia.
Qed.

Lemma struct_pack_B_out_of_range (n : Z) :
  n < 0 \/ 255 < n -> raises (struct_pack_B n).
Proof.
  intros Hn. unfold struct_pack_B.
  replace ((0 <=? n) && (n <=? 255)) with false.
  - eexists; reflexivity.
  - symmetry. apply andb_false_iff.
    destruct Hn; [left; apply Z.leb_gt | right; apply Z.leb_gt]; lia.
Qed.

Lemma len_nil {A : Type} : len (@nil A) = 0.
Proof. reflexivity. Qed.

Lemma len_cons {A : Type} (a : A) (l : list A) : len (a :: l) = 1 + len l.
Proof. unfold len. simpl List.length. lia. Qed.

Lemma len_nonneg {A : Type} (l : list A) : 0 <= len l.
Proof. unfold len. lia. Qed.

Lemma len_app {A : Type} (l k : list A) : len (l ++ k) = len l + len k.
Proof. unfold len. rewrite length_app. lia. Qed.

(** Settles a comparison of a constant with the length of a list whose
    first cells are known, when the cells decide it. *)
Ltac len_settle :=
  unfold len; cbn [List.length]; lia.

Ltac len_step :=
  match goal with
  | |- context [?a <=? len ?l] =>
      first [ replace (a <=? len l) with true
                by (symmetry; apply Z.leb_le; len_settle)
            | replace (a <=? len l) with false
                by (symmetry; apply Z.leb_gt; len_settle) ]
  | |- context [?a <? len ?l] =>
      first [ replace (a <? len l) with true
                by (symmetry; apply Z.ltb_lt; len_settle)
            | replace (a <? len l) with false
                by (symmetry; apply Z.ltb_ge; len_settle) ]
  end.

(** ** The response code taxonomy *)

Lemma first_member_In (c : Z) (ms : list (string * Z)) :
  (exists name, In (name, c) ms) <-> Code.first_member c ms <> None.
Proof.
  induction ms as [|[n v] ms IH]; simpl.
  - split; [intros [? []] | congruence].
  - destruct (Z.eqb_spec v c) as [->|Hne].
    + split; [discriminate | intros _; exists n; now left].
    + rewrite <- IH. split.
      * intros [name [H|H]]; [inversion H; congruence | now exists name].
      * intros [name H]. exists name. now right.
Qed.

Lemma registered_first_member (c : Z) :
  Code.registered c <-> Code.first_member c Code.members <> None.
Proof. apply first_member_In. Qed.

Lemma unregistered_first_member (c : Z) :
  ~ Code.registered c <-> Code.first_member c Code.members = None.
Proof.
  rewrite registered_first_member.
  destruct (Code.first_member c Code.members); intuition congruence.
Qed.

Lemma is_negative_unregistered (c : Z) :
  ~ Code.registered c -> Code.is_negative (Some c) = false.
Proof.
  intros Hc. apply unregistered_first_member in Hc.
  unfold Code.is_negative. rewrite Hc. now destruct (c =? _).
Qed.

Lemma is_negative_registered (c : Z) :
  Code.registered c -> c <> Code.PositiveResponse ->
  Code.is_negative (Some c) = true.
Proof.
  intros Hc Hpos. apply registered_first_member in Hc.
  unfold Code.is_negative.
  destruct (Z.eqb_spec c Code.PositiveResponse); [contradiction|].
  now destruct (Code.first_member c Code.members).
Qed.

Lemma is_negative_nonzero (c : Z) :
  Code.is_negative (Some c) = true -> c <> 0.
Proof.
  unfold Code.is_negative, Code.PositiveResponse.
  destruct (Z.eqb_spec c 0); [discriminate | auto].
Qed.

(** C7. [Response.Code.is_negative] is false for an absent code and for
    the PositiveResponse sentinel, false for every code of [0, 0xFF] that
    is the value of no named constant, and true for every named constant
    other than PositiveResponse. *)
Theorem is_negative_classification :
  Code.is_negative None = false /\
  Code.is_negative (Some Code.PositiveResponse) = false /\
  (forall c, 0 <= c <= 0xFF -> ~ Code.registered c ->
             Code.is_negative (Some c) = false) /\
  (forall c, Code.registered c -> c <> Code.PositiveResponse ->
             Code.is_negative (Some c) = true).
Proof.
  split; [reflexivity|]. split; [reflexivity|]. split.
  - intros c _ Hc. now apply is_negative_unregistered.
  - intros c Hc Hpos. now apply is_negative_registered.
Qed.

Lemma is_negative_classification_witness :
  Code.is_negative (Some 0x20) = false /\
  Code.is_negative (Some 0x31) = true.
Proof.
  destruct is_negative_classification as (_ & _ & Hunknown & Hknown).
  split.
  - apply Hunknown; [lia|].
    apply unregistered_first_member. reflexivity.
  - apply Hknown; [|discriminate].
    apply registered_first_member. discriminate.
Defined.

(** ** The response constructor *)

(** The object the constructor builds from a service, a code byte and
    permitted data. *)
Lemma Response_init_built (v : pyval) (s : Response.service_ref) (c : Z) (d : pyval) :
  as_service v = Some s ->
  0 <= c <= 0xFF ->
  data_permitted (Response.cls s) d ->
  Response.init v (PyInt c) d =
  Return {| Response.service := Some s;
            Response.positive := negb (Code.is_negative (Some c));
            Response.code := Some c;
            Response.code_name := Code.get_name (Some c);
            Response.valid := true;
            Response.invalid_reason := "";
            Response.data := as_bytes d |}.
Proof.
  intros Hv Hc Hd. unfold Response.init.
  assert (Hs : match v with
               | PyNone => Return None
               | PyServiceInstance i => Return (Some (Response.OfInstance i))
               | PyServiceClass c => Return (Some (Response.OfClass c))
               | _ => Raise (ValueError "Given service must be a service class or instance")
               end = Return (Some s)).
  { destruct v; simpl in Hv; try discriminate; now inversion Hv. }
  rewrite Hs. cbn [bind Response.service].
  assert (Hrange : (c <? 0) || (c >? 0xFF) = false).
  { rewrite Z.gtb_ltb. apply orb_false_iff. split; apply Z.ltb_ge; lia. }
  destruct Hd as [-> | [[b ->] Hhas]].
  - cbn [is_not_None bind]. rewrite Hrange.
    destruct (Code.is_negative (Some c)); reflexivity.
  - cbn [is_not_None bind]. rewrite Hhas. cbn [negb bind]. rewrite Hrange.
    destruct (Code.is_negative (Some c)); reflexivity.
Qed.

(** The constructor called without arguments, as [from_payload] calls it. *)
Lemma Response_init_default :
  Response.init PyNone PyNone PyNone =
  Return {| Response.service := None;
            Response.positive := false;
            Response.code := None;
            Response.code_name := "";
            Response.valid := false;
            Response.invalid_reason := "Object not initialized";
            Response.data := None |}.
Proof. reflexivity. Qed.

(** C10. For every service (class or instance), every integer code of
    [1, 0xFF] that is the value of no named constant, and data that is
    absent or permitted, the constructor succeeds and the object is
    positive and valid, with that code. *)
Theorem Response_init_unregistered_code_positive
    (v : pyval) (s : Response.service_ref) (c : Z) (d : pyval) :
  as_service v = Some s ->
  1 <= c <= 0xFF ->
  ~ Code.registered c ->
  data_permitted (Response.cls s) d ->
  exists r,
    Response.init v (PyInt c) d = Return r /\
    Response.positive r = true /\
    Response.valid r = true /\
    Response.code r = Some c.
Proof.
  intros Hv Hc Hun Hd.
  rewrite (Response_init_built v s c d Hv) by (assumption || lia).
  eexists. split; [reflexivity|].
  cbn [Response.positive Response.valid Response.code].
  rewrite (is_negative_unregistered c Hun). auto.
Qed.

Lemma Response_init_unregistered_code_positive_witness :
  exists r,
    Response.init (PyServiceClass Demo.ReadDataByIdentifier) (PyInt 0x20) PyNone
      = Return r /\
    Response.positive r = true /\
    Response.valid r = true /\
    Response.code r = Some 0x20.
Proof.
  apply (Response_init_unregistered_code_positive
           (PyServiceClass Demo.ReadDataByIdentifier)
           (Response.OfClass Demo.ReadDataByIdentifier) 0x20 PyNone).
  - reflexivity.
  - lia.
  - apply unregistered_first_member. reflexivity.
  - left. reflexivity.
Defined.

(** ** Parsing a response, shape by shape *)

Arguments len : simpl never.
Arguments Code.get_name : simpl never.
Arguments Code.is_negative : simpl never.

Ltac unfold_from_payload :=
  unfold Response.from_payload;
  rewrite Response_init_default;
  cbn [bind];
  repeat len_step;
  cbn [bind item nth_error].

Section ResponseShapes.
Variable reg : services.registry.

Lemma from_payload_empty :
  Response.from_payload reg [] =
  Return {| Response.service := None;
            Response.positive := false;
            Response.code := None;
            Response.code_name := "";
            Response.valid := false;
            Response.invalid_reason :=
              "Payload must be at least 2 bytes long (service and response)";
            Response.data := None |}.
Proof. reflexivity. Qed.

Lemma from_payload_unknown_service (b0 : byte) (rest : bytes) :
  services.cls_from_response_id reg (int_of_byte b0) = None ->
  Response.from_payload reg (b0 :: rest) =
  Return {| Response.service := None;
            Response.positive := false;
            Response.code := None;
            Response.code_name := "";
            Response.valid := false;
            Response.invalid_reason := "Payload first byte is not a know service.";
            Response.data := None |}.
Proof.
  intros Hreg. unfold_from_payload.
  cbn [Response.set_service Response.service]. rewrite Hreg. reflexivity.
Qed.

Lemma from_payload_single (b0 : byte) (s : services.BaseService) :
  services.cls_from_response_id reg (int_of_byte b0) = Some s ->
  Response.from_payload reg [b0] =
  Return (if services.has_response_data s then
            {| Response.service := Some (Response.OfClass s);
               Response.positive := false;
               Response.code := None;
               Response.code_name := "";
               Response.valid := false;
               Response.invalid_reason :=
                 "Payload must be at least 2 bytes long (service and response)";
               Response.data := None |}
          else
            {| Response.service := Some (Response.OfClass s);
               Response.positive := true;
               Response.code := Some 0;
               Response.code_name := "PositiveResponse";
               Response.valid := true;
               Response.invalid_reason := "Object not initialized";
               Response.data := None |}).
Proof.
  intros Hreg. unfold_from_payload.
  cbn [Response.set_service Response.service]. rewrite Hreg.
  cbn [option_map Response.cls].
  destruct (services.has_response_data s); reflexivity.
Qed.

Lemma from_payload_positive (b0 b1 : byte) (rest : bytes) (s : services.BaseService) :
  services.cls_from_response_id reg (int_of_byte b0) = Some s ->
  b1 <> x7f ->
  Response.from_payload reg (b0 :: b1 :: rest) =
  Return {| Response.service := Some (Response.OfClass s);
            Response.positive := true;
            Response.code := Some 0;
            Response.code_name := "PositiveResponse";
            Response.valid := true;
            Response.invalid_reason := "Object not initialized";
            Response.data := Some (b1 :: rest) |}.
Proof.
  intros Hreg Hb1. unfold_from_payload.
  cbn [Response.set_service Response.service]. rewrite Hreg.
  cbn [option_map].
  destruct (Z.eqb_spec (int_of_byte b1) 0x7F) as [E|_].
  - exfalso. apply Hb1. now apply int_of_byte_inj.
  - cbn [negb bind]. repeat len_step. reflexivity.
Qed.

Lemma from_payload_marker_only (b0 : byte) (s : services.BaseService) :
  services.cls_from_response_id reg (int_of_byte b0) = Some s ->
  Response.from_payload reg [b0; x7f] =
  Return {| Response.service := Some (Response.OfClass s);
            Response.positive := false;
            Response.code := None;
            Response.code_name := "";
            Response.valid := false;
            Response.invalid_reason := "Incomplete invalid response code (7Fxx)";
            Response.data := None |}.
Proof.
  intros Hreg. unfold_from_payload.
  cbn [Response.set_service Response.service]. rewrite Hreg.
  reflexivity.
Qed.

Lemma from_payload_negative (b0 b2 : byte) (rest : bytes) (s : services.BaseService) :
  services.cls_from_response_id reg (int_of_byte b0) = Some s ->
  Response.from_payload reg (b0 :: x7f :: b2 :: rest) =
  Return {| Response.service := Some (Response.OfClass s);
            Response.positive := false;
            Response.code := Some (int_of_byte b2);
            Response.code_name := Code.get_name (Some (int_of_byte b2));
            Response.valid := true;
            Response.invalid_reason := "Object not initialized";
            Response.data := match rest with
                             | [] => None
                             | _ :: _ => Some rest
                             end |}.
Proof.
  intros Hreg. unfold_from_payload.
  cbn [Response.set_service Response.service]. rewrite Hreg.
  cbn [option_map].
  change (int_of_byte x7f =? 0x7F) with true. cbn [negb bind].
  destruct rest; repeat len_step; reflexivity.
Qed.

End ResponseShapes.

(** ** Parsing never raises *)

(** Every payload falls under one of the shapes above. *)
Lemma from_payload_total (reg : services.registry) (payload : bytes) :
  exists r, Response.from_payload reg payload = Return r.
Proof.
  destruct payload as [|b0 rest].
  - eexists. apply from_payload_empty.
  - destruct (services.cls_from_response_id reg (int_of_byte b0)) as [s|] eqn:Hreg.
    + destruct rest as [|b1 rest].
      * eexists. apply (from_payload_single reg b0 s Hreg).
      * destruct (Byte.byte_eq_dec b1 x7f) as [->|Hb1].
        -- destruct rest as [|b2 rest].
           ++ eexists. apply (from_payload_marker_only reg b0 s Hreg).
           ++ eexists. apply (from_payload_negative reg b0 b2 rest s Hreg).
        -- eexists. apply (from_payload_positive reg b0 b1 rest s Hreg Hb1).
    + eexists. apply (from_payload_unknown_service reg b0 rest Hreg).
Qed.

(** C1. [Response.from_payload] returns a response for every byte
    sequence, and the response is invalid with a non-empty reason whenever
    the payload is empty, names no known service at byte 0, is a single byte
    for a service that declares response data, or stops after the [0x7F]
    marker at byte 1. *)
Theorem Response_from_payload_never_raises
    (reg : services.registry) (payload : bytes) :
  exists r,
    Response.from_payload reg payload = Return r /\
    (malformed_response reg payload ->
     Response.valid r = false /\ Response.invalid_reason r <> "").
Proof.
  destruct (from_payload_total reg payload) as [r Hr].
  exists r. split; [exact Hr|].
  intros [-> | [(b0 & rest & -> & Hreg) | [(b0 & s & -> & Hreg & Hdata) | [b0 ->]]]].
  - rewrite from_payload_empty in Hr. inversion Hr. split; [reflexivity|discriminate].
  - rewrite (from_payload_unknown_service reg b0 rest Hreg) in Hr.
    inversion Hr. split; [reflexivity|discriminate].
  - rewrite (from_payload_single reg b0 s Hreg), Hdata in Hr.
    inversion Hr. split; [reflexivity|discriminate].
  - destruct (services.cls_from_response_id reg (int_of_byte b0)) as [s|] eqn:Hreg.
    + rewrite (from_payload_marker_only reg b0 s Hreg) in Hr.
      inversion Hr. split; [reflexivity|discriminate].
    + rewrite (from_payload_unknown_service reg b0 _ Hreg) in Hr.
      inversion Hr. split; [reflexivity|discriminate].
Qed.

Lemma Response_from_payload_never_raises_witness :
  exists r,
    Response.from_payload Demo.registry [x62; x7f] = Return r /\
    Response.valid r = false /\ Response.invalid_reason r <> "".
Proof.
  destruct (Response_from_payload_never_raises Demo.registry [x62; x7f])
    as (r & Hr & Hbad).
  exists r. split; [exact Hr|].
  apply Hbad. right. right. right. exists x62. reflexivity.
Defined.

(** ** The negative-response scenario *)

(** C6, as stated, fails: in a registry where request id 0x22 maps to
    response id 0x62, the payload 7F 22 31 does not parse to a response with
    code 0x31; byte 0 is looked up as a response id and no service has the
    response id 0x7F. *)
Lemma from_payload_7F_22_31_has_no_code :
  services.cls_from_request_id Demo.registry 0x22 = Some Demo.ReadDataByIdentifier /\
  services.response_id Demo.ReadDataByIdentifier = 0x62 /\
  ~ exists r,
      Response.from_payload Demo.registry [x7f; x22; x31] = Return r /\
      Response.positive r = false /\
      Response.code r = Some 0x31.
Proof.
  split; [reflexivity|]. split; [reflexivity|].
  intros (r & Hr & _ & Hcode).
  rewrite (from_payload_unknown_service Demo.registry x7f [x22; x31] eq_refl) in Hr.
  inversion Hr; subst r. discriminate Hcode.
Qed.

(** In no registry at all does the payload 7F 22 31 parse to code 0x31:
    when byte 0 does resolve to a service, byte 1 is not the marker and the
    response is positive. *)
Lemma from_payload_7F_22_31_any_registry (reg : services.registry) :
  exists r,
    Response.from_payload reg [x7f; x22; x31] = Return r /\
    Response.code r <> Some 0x31.
Proof.
  destruct (services.cls_from_response_id reg (int_of_byte x7f)) as [s|] eqn:Hreg.
  - eexists. split.
    + apply (from_payload_positive reg x7f x22 [x31] s Hreg). discriminate.
    + discriminate.
  - eexists. split.
    + apply (from_payload_unknown_service reg x7f _ Hreg).
    + discriminate.
Qed.

(** C6, amended. In a registry where 0x62 is the response id of a
    service, the payload 62 7F 31 parses to a negative response of that
    service with code 0x31 (RequestOutOfRange) and no data. *)
Theorem from_payload_62_7F_31_negative
    (reg : services.registry) (s : services.BaseService) :
  services.cls_from_response_id reg 0x62 = Some s ->
  Response.from_payload reg [x62; x7f; x31] =
  Return {| Response.service := Some (Response.OfClass s);
            Response.positive := false;
            Response.code := Some 0x31;
            Response.code_name := "RequestOutOfRange";
            Response.valid := true;
            Response.invalid_reason := "Object not initialized";
            Response.data := None |}.
Proof.
  intros Hreg.
  apply (from_payload_negative reg x62 x31 [] s Hreg).
Qed.

Lemma from_payload_62_7F_31_negative_witness :
  Response.from_payload Demo.registry [x62; x7f; x31] =
  Return {| Response.service := Some (Response.OfClass Demo.ReadDataByIdentifier);
            Response.positive := false;
            Response.code := Some 0x31;
            Response.code_name := "RequestOutOfRange";
            Response.valid := true;
            Response.invalid_reason := "Object not initialized";
            Response.data := None |}.
Proof.
  apply (from_payload_62_7F_31_negative Demo.registry Demo.ReadDataByIdentifier).
  reflexivity.
Defined.

(** ** Building a response payload *)

(** The payload of a response whose service and code are set: the response
    id, the marker and the code when the response is negative, and the data
    when the service declares response data. *)
Lemma Response_get_payload_built (r : Response.t) (s : Response.service_ref) (c : Z) :
  Response.service r = Some s ->
  Response.code r = Some c ->
  0 <= services.response_id (Response.cls s) <= 0xFF ->
  0 <= c <= 0xFF ->
  Response.get_payload r =
  Return (byte_of_int (services.response_id (Response.cls s))
          :: (if Response.positive r then [] else [x7f; byte_of_int c])
          ++ match Response.data r with
             | Some d => if services.has_response_data (Response.cls s) then d else []
             | None => []
             end).
Proof.
  intros Hs Hc Hrid Hcode. unfold Response.get_payload.
  rewrite Hs, Hc. cbn [bind].
  rewrite (struct_pack_B_byte _ Hrid). cbn [bind].
  destruct (Response.positive r); cbn [negb bind].
  - destruct (Response.data r) as [d|];
      [destruct (services.has_response_data (Response.cls s))|];
      cbn [app]; rewrite ?app_nil_r; reflexivity.
  - rewrite (struct_pack_B_byte _ Hcode). cbn [bind].
    destruct (Response.data r) as [d|];
      [destruct (services.has_response_data (Response.cls s))|];
      cbn [app]; rewrite ?app_nil_r; reflexivity.
Qed.

(** C4, as stated, fails: a negative response built with data for a
    service that declares response data serialises to the three header
    bytes followed by the data. *)
Lemma negative_response_payload_carries_data :
  exists r,
    Response.init (PyServiceClass Demo.ReadDataByIdentifier)
                  (PyInt 0x31) (PyBytes [x01]) = Return r /\
    Response.positive r = false /\
    Response.get_payload r = Return [x62; x7f; x31; x01] /\
    Response.get_payload r <> Return [x62; x7f; x31].
Proof.
  eexists. split; [reflexivity|]. split; [reflexivity|].
  split; [reflexivity|discriminate].
Qed.

(** C4, amended. A negative response with a service whose response id
    is a byte and a code that is a byte serialises to response id, [0x7F],
    code, followed by the data exactly when the response carries data and
    the service declares response data. *)
Theorem negative_response_payload
    (r : Response.t) (s : Response.service_ref) (c : Z) :
  Response.positive r = false ->
  Response.service r = Some s ->
  Response.code r = Some c ->
  0 <= services.response_id (Response.cls s) <= 0xFF ->
  0 <= c <= 0xFF ->
  Response.get_payload r =
  Return ([byte_of_int (services.response_id (Response.cls s)); x7f; byte_of_int c]
          ++ match Response.data r with
             | Some d => if services.has_response_data (Response.cls s) then d else []
             | None => []
             end).
Proof.
  intros Hneg Hs Hc Hrid Hcode.
  rewrite (Response_get_payload_built r s c Hs Hc Hrid Hcode), Hneg.
  reflexivity.
Qed.

Lemma negative_response_payload_witness :
  Response.get_payload
    {| Response.service := Some (Response.OfClass Demo.TesterPresent);
       Response.positive := false;
       Response.code := Some 0x31;
       Response.code_name := "RequestOutOfRange";
       Response.valid := true;
       Response.invalid_reason := "";
       Response.data := None |}
  = Return [x7e; x7f; x31].
Proof.
  refine (negative_response_payload
           {| Response.service := Some (Response.OfClass Demo.TesterPresent);
              Response.positive := false;
              Response.code := Some 0x31;
              Response.code_name := "RequestOutOfRange";
              Response.valid := true;
              Response.invalid_reason := "";
              Response.data := None |}
           (Response.OfClass Demo.TesterPresent) 0x31
           eq_refl eq_refl eq_refl
           _ _); cbn; lia.
Defined.

(** ** The response round trip *)

(** What a successful call of the constructor on a service class and an
    integer code tells about its arguments and its result. *)
Lemma Response_init_inv (s : services.BaseService) (c : Z) (d : pyval) (r : Response.t) :
  Response.init (PyServiceClass s) (PyInt c) d = Return r ->
  0 <= c <= 0xFF /\
  data_permitted s d /\
  r = {| Response.service := Some (Response.OfClass s);
         Response.positive := negb (Code.is_negative (Some c));
         Response.code := Some c;
         Response.code_name := Code.get_name (Some c);
         Response.valid := true;
         Response.invalid_reason := "";
         Response.data := as_bytes d |}.
Proof.
  intros Hinit.
  assert (Hc : 0 <= c <= 0xFF).
  { destruct ((c <? 0) || (c >? 0xFF)) eqn:E.
    - unfold Response.init in Hinit.
      cbn [bind Response.service Response.cls] in Hinit.
      rewrite E in Hinit.
      destruct (if is_not_None d then _ else _); discriminate Hinit.
    - apply orb_false_iff in E. destruct E as [Hlo Hhi].
      rewrite Z.gtb_ltb in Hhi.
      apply Z.ltb_ge in Hlo. apply Z.ltb_ge in Hhi. lia. }
  assert (Hd : data_permitted s d).
  { unfold Response.init in Hinit. cbn [bind Response.service Response.cls] in Hinit.
    destruct d; cbn [is_not_None] in Hinit;
      try (left; reflexivity);
      destruct (services.has_response_data s) eqn:Hhas;
      cbn [negb bind] in Hinit; try discriminate Hinit.
    right. split; [eexists; reflexivity | exact Hhas]. }
  split; [exact Hc|]. split; [exact Hd|].
  rewrite (Response_init_built (PyServiceClass s) (Response.OfClass s) c d
             eq_refl Hc Hd) in Hinit.
  now inversion Hinit.
Qed.

Section ResponseRoundTrip.
Variable reg : services.registry.
Variable s : services.BaseService.
Hypothesis Hres : resolvable_response reg s.

Local Abbreviation b0 := (response_id_byte s).
Local Abbreviation built := (built_response s).

Lemma response_id_resolves :
  services.cls_from_response_id reg (int_of_byte b0) = Some s.
Proof.
  destruct Hres as [Hrid Hreg]. unfold response_id_byte.
  now rewrite (int_of_byte_of_int _ Hrid).
Qed.

Lemma built_payload (c : Z) (d : option bytes) :
  0 <= c <= 0xFF ->
  Response.get_payload (built c d) =
  Return (b0 :: (if Code.is_negative (Some c) then [x7f; byte_of_int c] else [])
          ++ match d with
             | Some d => if services.has_response_data s then d else []
             | None => []
             end).
Proof.
  intros Hc. destruct Hres as [Hrid _].
  rewrite (Response_get_payload_built (built c d) (Response.OfClass s) c
             eq_refl eq_refl Hrid Hc).
  cbn [built_response Response.positive Response.data Response.cls].
  now destruct (Code.is_negative (Some c)).
Qed.

(** Unpacks a round trip of [built c d] into the payload equation [Hpay]
    and the parse equation [Hparse]. *)
Ltac round_trip_inv Hpay Hparse :=
  let p := fresh "p" in
  let r' := fresh "r'" in
  let Hp := fresh "Hp" in
  let Hq := fresh "Hq" in
  let Hsvc := fresh "Hsvc" in
  let Hpos := fresh "Hpos" in
  let Hcode := fresh "Hcode" in
  let Hdata := fresh "Hdata" in
  intros (p & r' & Hp & Hq & Hsvc & Hpos & Hcode & Hdata);
  rewrite Hpay in Hp; inversion Hp; subst p; clear Hp;
  cbn [app] in Hq; rewrite Hparse in Hq; inversion Hq; subst r'; clear Hq;
  cbn [built_response Response.service Response.positive Response.code Response.data]
    in Hsvc, Hpos, Hcode, Hdata;
  try match goal with
      | H : Code.is_negative _ = _ |- _ => rewrite H in Hpos; cbn [negb] in Hpos
      end.

Lemma built_round_trip_iff (c : Z) (d : pyval) :
  0 <= c <= 0xFF ->
  data_permitted s d ->
  Response_round_trips reg (built c (as_bytes d)) <-> round_trip_condition s c d.
Proof.
  intros Hc Hd.
  pose proof response_id_resolves as Hb0.
  pose proof (built_payload c (as_bytes d) Hc) as Hpay.
  destruct (Code.is_negative (Some c)) eqn:Hneg.
  - (* a named negative code *)
    pose proof (is_negative_nonzero c Hneg) as Hnz.
    pose proof (int_of_byte_of_int c Hc) as Hcb.
    destruct Hd as [-> | [[b ->] Hhas]]; cbn [as_bytes] in Hpay |- *.
    + pose proof (from_payload_negative reg b0 (byte_of_int c) [] s Hb0) as Hparse.
      split.
      * intros _. right. split; [exact Hneg | now left].
      * intros _. eexists. eexists. split; [exact Hpay|].
        split; [exact Hparse|].
        unfold reproduces. cbn [built_response Response.service Response.positive
                                  Response.code Response.data].
        rewrite Hneg, Hcb. auto.
    + rewrite Hhas in Hpay. destruct b as [|b1 rest].
      * pose proof (from_payload_negative reg b0 (byte_of_int c) [] s Hb0) as Hparse.
        split.
        -- round_trip_inv Hpay Hparse. discriminate Hdata.
        -- intros [[H0 _] | [_ [H|(b & rest & H)]]];
             [contradiction | discriminate H | discriminate H].
      * pose proof (from_payload_negative reg b0 (byte_of_int c) (b1 :: rest) s Hb0)
          as Hparse.
        split.
        -- intros _. right. split; [exact Hneg|]. right. now exists b1, rest.
        -- intros _. eexists. eexists. split; [exact Hpay|].
           split; [exact Hparse|].
           unfold reproduces. cbn [built_response Response.service Response.positive
                                     Response.code Response.data].
           rewrite Hneg, Hcb. auto.
  - (* code 0, or a code that is no named constant *)
    destruct Hd as [-> | [[b ->] Hhas]]; cbn [as_bytes] in Hpay |- *.
    + pose proof (from_payload_single reg b0 s Hb0) as Hparse.
      destruct (services.has_response_data s) eqn:Hhas.
      * split.
        -- round_trip_inv Hpay Hparse. discriminate Hpos.
        -- intros [[_ [[_ H] | (b & rest & H & _)]] | [H _]]; congruence.
      * split.
        -- round_trip_inv Hpay Hparse. left. split; [congruence | now left].
        -- intros [[-> _] | [H _]]; [|congruence].
           eexists. eexists. split; [exact Hpay|]. split; [exact Hparse|].
           unfold reproduces. cbn [built_response Response.service Response.positive
                                     Response.code Response.data].
           rewrite Hneg. auto.
    + rewrite Hhas in Hpay. destruct b as [|b1 rest].
      * pose proof (from_payload_single reg b0 s Hb0) as Hparse.
        rewrite Hhas in Hparse.
        split.
        -- round_trip_inv Hpay Hparse. discriminate Hpos.
        -- intros [[_ [[H _] | (b & rest & H & _)]] | [H _]]; congruence.
      * destruct (Byte.byte_eq_dec b1 x7f) as [->|Hb1].
        -- assert (Hno : ~ round_trip_condition s c (PyBytes (x7f :: rest))).
           { intros [[_ [[H _] | (b & rest' & H & Hb)]] | [H _]];
               [discriminate H | inversion H; congruence | congruence]. }
           split; [|intros H; contradiction].
           destruct rest as [|b2 rest].
           ++ pose proof (from_payload_marker_only reg b0 s Hb0) as Hparse.
              round_trip_inv Hpay Hparse. discriminate Hpos.
           ++ pose proof (from_payload_negative reg b0 b2 rest s Hb0) as Hparse.
              round_trip_inv Hpay Hparse. discriminate Hpos.
        -- pose proof (from_payload_positive reg b0 b1 rest s Hb0 Hb1) as Hparse.
           split.
           ++ round_trip_inv Hpay Hparse. left. split; [congruence|].
              right. now exists b1, rest.
           ++ intros [[-> _] | [H _]]; [|congruence].
              eexists. eexists. split; [exact Hpay|]. split; [exact Hparse|].
              unfold reproduces. cbn [built_response Response.service Response.positive
                                        Response.code Response.data].
              rewrite Hneg. auto.
Qed.

End ResponseRoundTrip.

(** C2, as stated, fails: a positive response of a registered service
    whose permitted data starts with [0x7F] serialises to 62 7F 31, which
    parses as a negative response. *)
Lemma Response_round_trip_fails_on_marker_data :
  resolvable_response Demo.registry Demo.ReadDataByIdentifier /\
  exists r,
    Response.init (PyServiceClass Demo.ReadDataByIdentifier)
                  (PyInt 0) (PyBytes [x7f; x31]) = Return r /\
    Response.positive r = true /\
    ~ Response_round_trips Demo.registry r.
Proof.
  split; [split; [cbn; lia | reflexivity]|].
  eexists. split; [reflexivity|]. split; [reflexivity|].
  intros (p & r' & Hp & Hq & _ & Hpos & _).
  vm_compute in Hp. inversion Hp; subst p.
  vm_compute in Hq. inversion Hq; subst r'.
  discriminate Hpos.
Qed.

(** C2, amended. For a response built by the constructor from a service
    class resolvable in the registry, an integer code and data, serialising
    and parsing reproduces service, positive flag, code and data exactly
    when the code is 0 and the data is either absent for a service that
    declares no response data or non-empty and not starting with [0x7F], or
    the code is a named negative constant and the data is absent or
    non-empty. *)
Theorem Response_round_trip
    (reg : services.registry) (s : services.BaseService)
    (c : Z) (d : pyval) (r : Response.t) :
  resolvable_response reg s ->
  Response.init (PyServiceClass s) (PyInt c) d = Return r ->
  (Response_round_trips reg r <-> round_trip_condition s c d).
Proof.
  intros Hres Hinit.
  destruct (Response_init_inv s c d r Hinit) as (Hc & Hd & ->).
  exact (built_round_trip_iff reg s Hres c d Hc Hd).
Qed.

Lemma Response_round_trip_witness :
  Response_round_trips Demo.registry
    {| Response.service := Some (Response.OfClass Demo.ReadDataByIdentifier);
       Response.positive := false;
       Response.code := Some 0x31;
       Response.code_name := "RequestOutOfRange";
       Response.valid := true;
       Response.invalid_reason := "";
       Response.data := Some [x01] |}.
Proof.
  refine (proj2 (Response_round_trip Demo.registry Demo.ReadDataByIdentifier
                   0x31 (PyBytes [x01]) _ _ _) _).
  - split; [cbn; lia | reflexivity].
  - reflexivity.
  - right. split; [reflexivity|]. right. exists x01, []. reflexivity.
Defined.

(** ** The request framer *)

(** A property of every integer a byte can hold, from its check on the 256
    bytes. *)
Lemma byte_range_ind (P : Z -> Prop) :
  (forall b : byte, P (int_of_byte b)) ->
  forall n, 0 <= n <= 0xFF -> P n.
Proof.
  intros H n Hn. rewrite <- (int_of_byte_of_int n Hn). apply H.
Qed.

(** The subfunction byte, with and without the suppress bit, for a
    subfunction of seven bits. *)
Lemma subfunction_byte_low (sub : Z) :
  0 <= sub <= 0x7F ->
  Z.land sub 0x7F = sub /\
  (Z.land sub 0x80 >? 0) = false /\
  Z.land (Z.lor sub 0x80) 0x7F = sub /\
  (Z.land (Z.lor sub 0x80) 0x80 >? 0) = true /\
  0 <= Z.lor sub 0x80 <= 0xFF.
Proof.
  intros Hsub. assert (Hb : 0 <= sub <= 0xFF) by lia.
  revert sub Hb Hsub. apply (byte_range_ind (fun sub => 0 <= sub <= 0x7F -> _)).
  intros b; destruct b; vm_compute; intros [H1 H2];
    first [ exfalso; apply H2; reflexivity
          | repeat split; congruence ].
Qed.

(** The subfunction byte for a subfunction that has bit 7 set: the parser
    reads another subfunction. *)
Lemma subfunction_byte_high (sub : Z) :
  0x80 <= sub <= 0xFF ->
  Z.land sub 0x7F <> sub /\
  Z.land (Z.lor sub 0x80) 0x7F <> sub /\
  0 <= Z.lor sub 0x80 <= 0xFF.
Proof.
  intros Hsub. assert (Hb : 0 <= sub <= 0xFF) by lia.
  revert sub Hb Hsub. apply (byte_range_ind (fun sub => 0x80 <= sub <= 0xFF -> _)).
  intros b; destruct b; vm_compute; intros [H1 H2];
    first [ exfalso; apply H1; reflexivity
          | repeat split; congruence ].
Qed.

(** The constructor called without arguments, as [from_payload] calls it. *)
Lemma Request_init_default :
  Request.init PyNone PyNone false PyNone =
  Return {| Request.service := Request.Assigned None;
            Request.subfunction := Request.Assigned None;
            Request.suppress_positive_response := false;
            Request.data := None |}.
Proof. reflexivity. Qed.

Section RequestShapes.
Variable reg : services.registry.

Lemma Request_from_payload_empty :
  Request.from_payload reg [] =
  Return {| Request.service := Request.Assigned None;
            Request.subfunction := Request.Assigned None;
            Request.suppress_positive_response := false;
            Request.data := None |}.
Proof. reflexivity. Qed.

Lemma Request_from_payload_unknown_service (b0 : byte) (rest : bytes) :
  services.cls_from_request_id reg (int_of_byte b0) = None ->
  Request.from_payload reg (b0 :: rest) =
  Return {| Request.service := Request.Assigned None;
            Request.subfunction := Request.Assigned None;
            Request.suppress_positive_response := false;
            Request.data := None |}.
Proof.
  intros Hreg. unfold Request.from_payload.
  rewrite Request_init_default. cbn [bind].
  len_step. cbn [item nth_error bind]. rewrite Hreg. reflexivity.
Qed.

Lemma Request_from_payload_plain (b0 : byte) (rest : bytes) (s : services.BaseService) :
  services.cls_from_request_id reg (int_of_byte b0) = Some s ->
  services.use_subfunction s = false ->
  Request.from_payload reg (b0 :: rest) =
  Return {| Request.service := Request.Assigned (Some s);
            Request.subfunction := Request.Assigned None;
            Request.suppress_positive_response := false;
            Request.data := parsed_data rest |}.
Proof.
  intros Hreg Hsub. unfold Request.from_payload.
  rewrite Request_init_default. cbn [bind].
  len_step. cbn [item nth_error bind]. rewrite Hreg, Hsub. cbn [bind].
  destruct rest; len_step; reflexivity.
Qed.

Lemma Request_from_payload_header_only (b0 : byte) (s : services.BaseService) :
  services.cls_from_request_id reg (int_of_byte b0) = Some s ->
  services.use_subfunction s = true ->
  Request.from_payload reg [b0] =
  Return {| Request.service := Request.Assigned (Some s);
            Request.subfunction := Request.Assigned None;
            Request.suppress_positive_response := false;
            Request.data := None |}.
Proof.
  intros Hreg Hsub. unfold Request.from_payload.
  rewrite Request_init_default. cbn [bind].
  len_step. cbn [item nth_error bind]. rewrite Hreg, Hsub.
  repeat len_step. reflexivity.
Qed.

Lemma Request_from_payload_subfunction
    (b0 b1 : byte) (rest : bytes) (s : services.BaseService) :
  services.cls_from_request_id reg (int_of_byte b0) = Some s ->
  services.use_subfunction s = true ->
  Request.from_payload reg (b0 :: b1 :: rest) =
  Return {| Request.service := Request.Assigned (Some s);
            Request.subfunction := Request.Assigned (Some (Z.land (int_of_byte b1) 0x7F));
            Request.suppress_positive_response :=
              if Z.land (int_of_byte b1) 0x80 >? 0 then true else false;
            Request.data := parsed_data rest |}.
Proof.
  intros Hreg Hsub. unfold Request.from_payload.
  rewrite Request_init_default. cbn [bind].
  len_step. cbn [item nth_error bind]. rewrite Hreg, Hsub.
  len_step. cbn [item nth_error bind].
  destruct rest; len_step; reflexivity.
Qed.

(** [Request.from_payload] returns a request for every byte sequence. *)
Lemma Request_from_payload_total (payload : bytes) :
  exists r, Request.from_payload reg payload = Return r.
Proof.
  destruct payload as [|b0 rest].
  - eexists. apply Request_from_payload_empty.
  - destruct (services.cls_from_request_id reg (int_of_byte b0)) as [s|] eqn:Hreg.
    + destruct (services.use_subfunction s) eqn:Hsub.
      * destruct rest as [|b1 rest].
        -- eexists. apply (Request_from_payload_header_only b0 s Hreg Hsub).
        -- eexists. apply (Request_from_payload_subfunction b0 b1 rest s Hreg Hsub).
      * eexists. apply (Request_from_payload_plain b0 rest s Hreg Hsub).
    + eexists. apply (Request_from_payload_unknown_service b0 rest Hreg).
Qed.

End RequestShapes.

Lemma Request_get_payload_subfunction (r : Request.t) (s : services.BaseService) (sub : Z) :
  Request.service r = Request.Assigned (Some s) ->
  services.use_subfunction s = true ->
  Request.subfunction r = Request.Assigned (Some sub) ->
  0 <= services.request_id s <= 0xFF ->
  0 <= wire_subfunction r sub <= 0xFF ->
  Request.get_payload r =
  with_data [byte_of_int (services.request_id s); byte_of_int (wire_subfunction r sub)]
            (Request.data r).
Proof.
  intros Hs Huse Hsub Hrid Hwire. unfold Request.get_payload.
  rewrite Hs, Hsub. cbn [Request.read bind]. rewrite Huse. cbn [bind].
  rewrite (struct_pack_B_byte _ Hrid). cbn [bind].
  fold (wire_subfunction r sub).
  rewrite (struct_pack_B_byte _ Hwire). cbn [bind app].
  reflexivity.
Qed.

Lemma Request_get_payload_plain (r : Request.t) (s : services.BaseService) :
  Request.service r = Request.Assigned (Some s) ->
  services.use_subfunction s = false ->
  0 <= services.request_id s <= 0xFF ->
  Request.get_payload r =
  with_data [byte_of_int (services.request_id s)] (Request.data r).
Proof.
  intros Hs Huse Hrid. unfold Request.get_payload.
  rewrite Hs. cbn [Request.read bind]. rewrite Huse. cbn [bind].
  rewrite (struct_pack_B_byte _ Hrid). cbn [bind].
  reflexivity.
Qed.

(** ** The request round trip *)

Section RequestRoundTrip.
Variable reg : services.registry.
Variable s : services.BaseService.
Hypothesis Hres : resolvable_request reg s.

Local Abbreviation b0 := (request_id_byte s).

Lemma request_id_resolves :
  services.cls_from_request_id reg (int_of_byte b0) = Some s.
Proof.
  destruct Hres as [Hrid Hreg]. unfold request_id_byte.
  now rewrite (int_of_byte_of_int _ Hrid).
Qed.

(** Unpacks a round trip of [r] into the payload equation [Hpay] and the
    parse equation [Hparse]. *)
Ltac request_round_trip_inv Hpay Hparse :=
  let p := fresh "p" in
  let r' := fresh "r'" in
  let Hp := fresh "Hp" in
  let Hq := fresh "Hq" in
  let Hsvc := fresh "Hsvc" in
  let Hsubf := fresh "Hsubf" in
  let Hflag := fresh "Hflag" in
  let Hdata := fresh "Hdata" in
  intros (p & r' & Hp & Hq & Hsvc & Hsubf & Hflag & Hdata);
  rewrite Hpay in Hp; cbn [with_data app] in Hp;
  try discriminate Hp;
  inversion Hp; subst p; clear Hp;
  apply (eq_trans (eq_sym Hparse)) in Hq; inversion Hq; subst r'; clear Hq;
  cbn [Request.service Request.subfunction Request.suppress_positive_response
       Request.data parsed_data] in Hsvc, Hsubf, Hflag, Hdata.

(** The data part of the condition, from the data attribute that came
    back. *)
Lemma parsed_data_condition (d : option Request.payload_data) (rest : bytes) :
  with_data [] d = Return rest ->
  parsed_data rest = d ->
  d = None \/ exists b tl, d = Some (Request.OfBytes (b :: tl)).
Proof.
  intros Hwith Hparsed.
  destruct d as [[str|[|b tl]]|]; cbn in Hwith; try discriminate Hwith.
  - inversion Hwith; subst rest. discriminate Hparsed.
  - right. now exists b, tl.
  - now left.
Qed.

Lemma Request_round_trip_subfunction (r : Request.t) (sub : Z) :
  Request.service r = Request.Assigned (Some s) ->
  services.use_subfunction s = true ->
  Request.subfunction r = Request.Assigned (Some sub) ->
  0 <= sub <= 0xFF ->
  Request_round_trips reg r <->
  (0 <= sub <= 0x7F /\
   (Request.data r = None \/
    exists b rest, Request.data r = Some (Request.OfBytes (b :: rest)))).
Proof.
  intros Hs Huse Hsub Hbyte.
  pose proof request_id_resolves as Hb0.
  destruct Hres as [Hrid _].
  assert (Hwire : 0 <= wire_subfunction r sub <= 0xFF).
  { unfold wire_subfunction.
    destruct (Request.suppress_positive_response r); [|exact Hbyte].
    destruct (Z.le_gt_cases sub 0x7F).
    - apply subfunction_byte_low. lia.
    - apply subfunction_byte_high. lia. }
  pose proof (Request_get_payload_subfunction r s sub Hs Huse Hsub Hrid Hwire) as Hpay.
  pose proof (int_of_byte_of_int _ Hwire) as Hbw.
  assert (Hparse : forall rest,
             Request.from_payload reg
               (b0 :: byte_of_int (wire_subfunction r sub) :: rest) =
             Return {| Request.service := Request.Assigned (Some s);
                       Request.subfunction :=
                         Request.Assigned (Some (Z.land (wire_subfunction r sub) 0x7F));
                       Request.suppress_positive_response :=
                         if Z.land (wire_subfunction r sub) 0x80 >? 0
                         then true else false;
                       Request.data := parsed_data rest |}).
  { intros rest.
    rewrite (Request_from_payload_subfunction reg b0 _ rest s Hb0 Huse), Hbw.
    reflexivity. }
  destruct (Z.le_gt_cases sub 0x7F) as [Hlow|Hhigh].
  - (* seven bits: the subfunction and the flag come back *)
    destruct (subfunction_byte_low sub (conj (proj1 Hbyte) Hlow))
      as (Hl1 & Hl2 & Hl3 & Hl4 & _).
    assert (Hback : Z.land (wire_subfunction r sub) 0x7F = sub /\
                    (if Z.land (wire_subfunction r sub) 0x80 >? 0 then true else false)
                    = Request.suppress_positive_response r).
    { unfold wire_subfunction.
      destruct (Request.suppress_positive_response r).
      - now rewrite Hl3, Hl4.
      - now rewrite Hl1, Hl2. }
    destruct Hback as [Hback1 Hback2].
    split.
    + intros Hrt. split; [lia|]. revert Hrt.
      destruct (Request.data r) as [[str|d]|] eqn:Hd.
      * request_round_trip_inv Hpay (Hparse []).
      * request_round_trip_inv Hpay (Hparse d). rewrite Hd in Hdata.
        apply (parsed_data_condition _ d); [reflexivity | exact Hdata].
      * intros _. now left.
    + intros [_ Hd].
      destruct Hd as [Hd | (b & rest & Hd)]; rewrite Hd in Hpay; cbn [with_data app] in Hpay.
      * eexists. eexists. split; [exact Hpay|]. split; [apply (Hparse [])|].
        unfold Request_reproduces.
        cbn [Request.service Request.subfunction
             Request.suppress_positive_response Request.data parsed_data].
        rewrite Hs, Hsub, Hd, Hback1, Hback2. auto.
      * eexists. eexists. split; [exact Hpay|]. split; [apply (Hparse (b :: rest))|].
        unfold Request_reproduces.
        cbn [Request.service Request.subfunction
             Request.suppress_positive_response Request.data parsed_data].
        rewrite Hs, Hsub, Hd, Hback1, Hback2. auto.
  - (* bit 7 set: another subfunction comes back *)
    destruct (subfunction_byte_high sub) as (Hh1 & Hh2 & _); [lia|].
    assert (Hlost : Z.land (wire_subfunction r sub) 0x7F <> sub).
    { unfold wire_subfunction.
      destruct (Request.suppress_positive_response r); assumption. }
    split; [|intros [? _]; lia].
    destruct (Request.data r) as [[str|d]|] eqn:Hd.
    + request_round_trip_inv Hpay (Hparse []).
    + request_round_trip_inv Hpay (Hparse d).
      rewrite Hsub in Hsubf. inversion Hsubf. contradiction.
    + request_round_trip_inv Hpay (Hparse []).
      rewrite Hsub in Hsubf. inversion Hsubf. contradiction.
Qed.

Lemma Request_round_trip_plain (r : Request.t) :
  Request.service r = Request.Assigned (Some s) ->
  services.use_subfunction s = false ->
  Request_round_trips reg r <->
  ((Request.subfunction r = Request.Assigned None /\
    Request.suppress_positive_response r = false) /\
   (Request.data r = None \/
    exists b rest, Request.data r = Some (Request.OfBytes (b :: rest)))).
Proof.
  intros Hs Huse.
  pose proof request_id_resolves as Hb0.
  destruct Hres as [Hrid _].
  pose proof (Request_get_payload_plain r s Hs Huse Hrid) as Hpay.
  pose proof (fun rest => Request_from_payload_plain reg b0 rest s Hb0 Huse) as Hparse.
  split.
  - destruct (Request.data r) as [[str|d]|] eqn:Hd.
    + request_round_trip_inv Hpay (Hparse []).
    + request_round_trip_inv Hpay (Hparse d). rewrite Hd in Hdata.
      split; [split; congruence|].
      apply (parsed_data_condition _ d); [reflexivity | exact Hdata].
    + request_round_trip_inv Hpay (Hparse []).
      split; [split; congruence | now left].
  - intros [[Hsubf Hflag] Hd].
    destruct Hd as [Hd | (b & rest & Hd)]; rewrite Hd in Hpay; cbn [with_data app] in Hpay.
    + eexists. eexists. split; [exact Hpay|]. split; [apply (Hparse [])|].
      unfold Request_reproduces.
      cbn [Request.service Request.subfunction
           Request.suppress_positive_response Request.data parsed_data].
      rewrite Hs, Hsubf, Hflag, Hd. auto.
    + eexists. eexists. split; [exact Hpay|]. split; [apply (Hparse (b :: rest))|].
      unfold Request_reproduces.
      cbn [Request.service Request.subfunction
           Request.suppress_positive_response Request.data parsed_data].
      rewrite Hs, Hsubf, Hflag, Hd. auto.
Qed.

End RequestRoundTrip.

(** C3, as stated, fails: a request of a registered service whose
    subfunction is the byte 0x81 serialises to 11 81, which parses as
    subfunction 0x01 with the suppress flag set. *)
Lemma Request_round_trip_fails_on_high_subfunction :
  resolvable_request Demo.registry Demo.ECUReset /\
  exists r,
    Request.init (PyServiceClass Demo.ECUReset) (PyInt 0x81) false PyNone = Return r /\
    Request_well_formed Demo.ECUReset r /\
    Request.from_payload Demo.registry [x11; x81] =
      Return {| Request.service := Request.Assigned (Some Demo.ECUReset);
                Request.subfunction := Request.Assigned (Some 0x01);
                Request.suppress_positive_response := true;
                Request.data := None |} /\
    ~ Request_round_trips Demo.registry r.
Proof.
  split; [split; [cbn; lia | reflexivity]|].
  eexists. split; [reflexivity|].
  split; [split; [reflexivity | intros _; exists 0x81; split; [reflexivity | lia]]|].
  split; [reflexivity|].
  intros (p & r' & Hp & Hq & _ & Hsubf & _).
  vm_compute in Hp. inversion Hp; subst p.
  vm_compute in Hq. inversion Hq; subst r'.
  discriminate Hsubf.
Qed.

(** C3, amended. For a request of a registered service class whose
    subfunction, when the service uses one, is a byte, serialising and
    parsing reproduces service, subfunction, suppress flag and data exactly
    when the subfunction fits in seven bits (or, for a service without
    subfunction, the subfunction is [None] and the suppress flag is off)
    and the data is absent or a non-empty [bytes] object. *)
Theorem Request_round_trip
    (reg : services.registry) (s : services.BaseService) (r : Request.t) :
  resolvable_request reg s ->
  Request_well_formed s r ->
  (Request_round_trips reg r <-> Request_round_trip_condition s r).
Proof.
  intros Hres [Hs Hwf]. unfold Request_round_trip_condition.
  destruct (services.use_subfunction s) eqn:Huse.
  - destruct (Hwf eq_refl) as (sub & Hsub & Hbyte).
    rewrite (Request_round_trip_subfunction reg s Hres r sub Hs Huse Hsub Hbyte).
    split.
    + intros [Hlow Hd]. split; [now exists sub | exact Hd].
    + intros [(sub' & Hsub' & Hlow) Hd]. split; [|exact Hd].
      rewrite Hsub in Hsub'. now inversion Hsub'.
  - apply (Request_round_trip_plain reg s Hres r Hs Huse).
Qed.

Lemma Request_round_trip_witness :
  Request_round_trips Demo.registry
    {| Request.service := Request.Assigned (Some Demo.ECUReset);
       Request.subfunction := Request.Assigned (Some 0x01);
       Request.suppress_positive_response := true;
       Request.data := Some (Request.OfBytes [x2a]) |}.
Proof.
  refine (proj2 (Request_round_trip Demo.registry Demo.ECUReset _ _ _) _).
  - split; [cbn; lia | reflexivity].
  - split; [reflexivity|]. intros _. exists 0x01. split; [reflexivity | lia].
  - split.
    + exists 0x01. split; [reflexivity | lia].
    + right. exists x2a, []. reflexivity.
Defined.

(** The constructor leaves [service] and [subfunction] unassigned when it
    is given a service class and no subfunction; [get_payload] then raises
    on its first attribute read. *)
Lemma Request_init_class_without_subfunction (s : services.BaseService) (flag : bool) :
  exists r,
    Request.init (PyServiceClass s) PyNone flag PyNone = Return r /\
    Request.service r = Request.Unassigned /\
    Request.get_payload r = Raise (AttributeError "service").
Proof. eexists. repeat split. Qed.

(** The constructor accepts data only as a [str], and [get_payload] cannot
    append a [str] to the [bytes] header: a request built with data does not
    serialise. *)
Lemma Request_init_data_does_not_serialise
    (s : services.BaseService) (sub : Z) (flag : bool) (d : pyval) (r : Request.t) :
  d <> PyNone ->
  Request.init (PyServiceClass s) (PyInt sub) flag d = Return r ->
  raises (Request.get_payload r).
Proof.
  intros Hd Hinit. unfold Request.init in Hinit. cbn [bind] in Hinit.
  destruct d; try discriminate Hinit; [contradiction|].
  cbn [bind fst snd] in Hinit. inversion Hinit; subst r; clear Hinit.
  unfold Request.get_payload, raises.
  cbn [Request.service Request.subfunction Request.data Request.read bind
       Request.suppress_positive_response].
  destruct (services.use_subfunction s); cbn [bind];
    destruct (struct_pack_B (services.request_id s)); cbn [bind];
    try (eexists; reflexivity);
    destruct (struct_pack_B _); cbn [bind]; eexists; reflexivity.
Qed.

(** ** The codec factory *)

(** C8, as stated, fails: for an argument that is neither a codec, a
    codec class nor a string, [from_config] raises nothing; it returns
    [None]. *)
Lemma from_config_other_shape_returns_None :
  DidCodec.recognised DidCodecObj.DidCodec (PyInt 5) = false /\
  DidCodec.from_config DidCodecObj.DidCodec (PyInt 5) = Return PyNone /\
  ~ raises (DidCodec.from_config DidCodecObj.DidCodec (PyInt 5)).
Proof.
  split; [reflexivity|]. split; [reflexivity|].
  intros [e He]. discriminate He.
Qed.

(** C8, amended. [from_config], called on a codec class, returns a codec
    of that class unchanged, instantiates a subclass of it without
    arguments, wraps a string as the pack format of a new codec of the
    class, and returns [None], raising nothing, for every other argument. *)
Theorem from_config_cases (c : DidCodecObj.cls) (v : pyval) :
  (DidCodec.isinstance v c = true ->
   DidCodec.from_config c v = Return v) /\
  (forall d, v = PyCodecClass d -> DidCodecObj.issubclass d c = true ->
   DidCodec.from_config c v =
   Return (PyCodec {| DidCodecObj.class_of := d; DidCodecObj.packstr := None |})) /\
  (forall str, v = PyStr str ->
   DidCodec.from_config c v =
   Return (PyCodec {| DidCodecObj.class_of := c; DidCodecObj.packstr := Some str |})) /\
  (DidCodec.recognised c v = false ->
   DidCodec.from_config c v = Return PyNone).
Proof.
  unfold DidCodec.from_config, DidCodec.recognised.
  split; [|split; [|split]].
  - intros H. now rewrite H.
  - intros d -> H. cbn. now rewrite H.
  - intros str ->. reflexivity.
  - intros H. apply orb_false_iff in H. destruct H as [H Hstr].
    apply orb_false_iff in H. destruct H as [Hinst Hsub].
    rewrite Hinst, Hsub. now destruct (DidCodec.is_str v).
Qed.

Lemma from_config_cases_witness :
  DidCodec.from_config DidCodecObj.DidCodec
    (PyCodec {| DidCodecObj.class_of := DidCodecObj.Subclass "AsciiCodec";
                DidCodecObj.packstr := None |})
  = Return (PyCodec {| DidCodecObj.class_of := DidCodecObj.Subclass "AsciiCodec";
                       DidCodecObj.packstr := None |}) /\
  DidCodec.from_config DidCodecObj.DidCodec
    (PyCodecClass (DidCodecObj.Subclass "AsciiCodec"))
  = Return (PyCodec {| DidCodecObj.class_of := DidCodecObj.Subclass "AsciiCodec";
                       DidCodecObj.packstr := None |}) /\
  DidCodec.from_config DidCodecObj.DidCodec (PyStr "<H")
  = Return (PyCodec {| DidCodecObj.class_of := DidCodecObj.DidCodec;
                       DidCodecObj.packstr := Some "<H" |}) /\
  DidCodec.from_config DidCodecObj.DidCodec (PyBytes [x01]) = Return PyNone.
Proof.
  split; [|split; [|split]].
  - apply (proj1 (from_config_cases _ _)). reflexivity.
  - apply (proj1 (proj2 (from_config_cases DidCodecObj.DidCodec _))
             (DidCodecObj.Subclass "AsciiCodec")); reflexivity.
  - apply (proj1 (proj2 (proj2 (from_config_cases DidCodecObj.DidCodec _))) "<H").
    reflexivity.
  - apply (proj2 (proj2 (proj2 (from_config_cases _ _)))). reflexivity.
Defined.

(** [from_config] raises for no argument (a codec class being instantiated
    through the constructor it inherits from [DidCodec]). *)
Lemma from_config_never_raises (c : DidCodecObj.cls) (v : pyval) :
  ~ raises (DidCodec.from_config c v).
Proof.
  intros [e He]. unfold DidCodec.from_config in He.
  destruct (DidCodec.isinstance v c); [discriminate He|].
  destruct (DidCodec.is_subclass_of v c) eqn:Hsub.
  - destruct v; try discriminate Hsub. discriminate He.
  - destruct (DidCodec.is_str v); discriminate He.
Qed.

(** ** The DTC status model *)

(** The constructor of [Dtc] raises for every argument. *)
Lemma Dtc_init_raises (dtc : Z) : Dtc.init dtc = Raise (NameError "dtcid").
Proof. reflexivity. Qed.

(** The byte the getter computes and the setter are inverse to each other:
    the setter recovers the eight fields from the byte of an object. *)
Lemma Dtc_set_status_status_byte (d : Dtc.t) :
  Dtc.set_status d (Dtc.status_byte d) = d.
Proof.
  destruct d as [i f0 f1 f2 f3 f4 f5 f6 f7].
  destruct f0, f1, f2, f3, f4, f5, f6, f7; reflexivity.
Qed.

(** ... and the byte computed from the fields the setter wrote is the byte
    the setter was given, for all 256 bytes. *)
Lemma Dtc_status_byte_set_status (d : Dtc.t) (byte : Z) :
  0 <= byte <= 0xFF ->
  Dtc.status_byte (Dtc.set_status d byte) = byte.
Proof.
  revert byte. apply byte_range_ind.
  intros b. destruct b; reflexivity.
Qed.

(** The bit of each field in the computed byte. *)
Lemma Dtc_status_byte_bits (d : Dtc.t) :
  Z.testbit (Dtc.status_byte d) 0 = Dtc.testFailed d /\
  Z.testbit (Dtc.status_byte d) 1 = Dtc.testFailedThisOperationCycle d /\
  Z.testbit (Dtc.status_byte d) 2 = Dtc.pending d /\
  Z.testbit (Dtc.status_byte d) 3 = Dtc.confirmed d /\
  Z.testbit (Dtc.status_byte d) 4 = Dtc.testNotCompletedSinceLastClear d /\
  Z.testbit (Dtc.status_byte d) 5 = Dtc.testFailedSinceLastClear d /\
  Z.testbit (Dtc.status_byte d) 6 = Dtc.testNotCompletedThisOperationCycle d /\
  Z.testbit (Dtc.status_byte d) 7 = Dtc.warningIndicatorRequested d /\
  0 <= Dtc.status_byte d <= 0xFF.
Proof.
  destruct d as [i f0 f1 f2 f3 f4 f5 f6 f7].
  destruct f0, f1, f2, f3, f4, f5, f6, f7; vm_compute;
    repeat split; congruence.
Qed.

(** C5 (the code departs from the claim). Reading the [status] property
    yields [None] for every object, so neither the packed byte of the fields
    nor a byte just written is read back; the body computes the byte and
    drops it. *)
Theorem Dtc_status_reads_None (d : Dtc.t) (byte : Z) :
  Dtc.status d = None /\
  Dtc.status (Dtc.set_status d byte) = None /\
  Dtc.status d <> Some (Dtc.status_byte d).
Proof.
  split; [reflexivity|]. split; [reflexivity|]. discriminate.
Qed.

(** The function [updateStatus] raises whatever it is given: with an
    argument that is not [None] at the first assignment through [self], and
    otherwise at the read of [testNotCompletedThisOperationCycle]. *)
Lemma Dtc_updateStatus_raises (a1 a2 a3 a4 a5 a6 a7 : Dtc.arg) :
  raises (Dtc.updateStatus a1 a2 a3 a4 a5 a6 a7).
Proof.
  unfold raises, Dtc.updateStatus, Dtc.assign_self_attr, Dtc.unbound.
  destruct (Dtc.is_not_None a1); cbn [bind]; [eexists; reflexivity|].
  destruct (Dtc.is_not_None a2); cbn [bind]; [eexists; reflexivity|].
  destruct (Dtc.is_not_None a3); cbn [bind]; [eexists; reflexivity|].
  destruct (Dtc.is_not_None a4); cbn [bind]; [eexists; reflexivity|].
  destruct (Dtc.is_not_None a5); cbn [bind]; [eexists; reflexivity|].
  destruct (Dtc.is_not_None a6); cbn [bind]; eexists; reflexivity.
Qed.

(** C9 (the code departs from the claim). A call of [updateStatus] on an
    object raises for every set of keyword arguments and leaves every field
    of the object as it was, also the fields that were supplied. *)
Theorem Dtc_updateStatus_call_raises (d : Dtc.t) (kw : Dtc.kwargs) :
  raises (fst (Dtc.call_updateStatus d kw)) /\
  snd (Dtc.call_updateStatus d kw) = d.
Proof.
  unfold Dtc.call_updateStatus.
  destruct (Dtc.kw_testNotCompletedThisOperationCycle kw);
    [split; [eexists|]; reflexivity|].
  destruct (Dtc.kw_testFailed kw); [split; [eexists|]; reflexivity|].
  split; [apply Dtc_updateStatus_raises | reflexivity].
Qed.

(** At a concrete call: supplying [pending = True] to an object whose
    fields are all off raises [NameError] and does not set the field. *)
Lemma Dtc_updateStatus_pending_not_set :
  let d := {| Dtc.id := 0x123456;
              Dtc.testFailed := false;
              Dtc.testFailedThisOperationCycle := false;
              Dtc.pending := false;
              Dtc.confirmed := false;
              Dtc.testNotCompletedSinceLastClear := false;
              Dtc.testFailedSinceLastClear := false;
              Dtc.testNotCompletedThisOperationCycle := false;
              Dtc.warningIndicatorRequested := false |} in
  let kw := {| Dtc.kw_testFailed := None;
               Dtc.kw_testFailedThisOperationCycle := None;
               Dtc.kw_pending := Some true;
               Dtc.kw_confirmed := None;
               Dtc.kw_testNotCompletedSinceLastClear := None;
               Dtc.kw_testFailedSinceLastClear := None;
               Dtc.kw_testNotCompletedThisOperationCycle := None;
               Dtc.kw_warningIndicatorRequested := None |} in
  Dtc.call_updateStatus d kw = (Raise (NameError "self"), d) /\
  Dtc.pending (Dtc.updated d kw) = true /\
  Dtc.pending (snd (Dtc.call_updateStatus d kw)) = false.
Proof. repeat split. Qed.

(* ================================================================== *)
(** * Part III: further properties of the module                       *)
(* ================================================================== *)

(** ** Names of response codes *)

(** [Response.Code.get_name] gives the empty string for an absent code,
    the name of the constant for the value of each named constant (no two
    constants share a value, so none hides another), and the decimal
    numeral for every other integer. *)
Theorem get_name_cases :
  Code.get_name None = "" /\
  (forall name v, In (name, v) Code.members -> Code.get_name (Some v) = name) /\
  (forall c, ~ Code.registered c -> Code.get_name (Some c) = str c).
Proof.
  split; [reflexivity|]. split.
  - intros name v H. unfold Code.members in H. cbn [In] in H.
    repeat (destruct H as [H|H]; [inversion H; reflexivity|]).
    contradiction.
  - intros c Hc. apply unregistered_first_member in Hc.
    unfold Code.get_name. now rewrite Hc.
Qed.

Lemma get_name_cases_witness :
  Code.get_name (Some 0x31) = "RequestOutOfRange" /\
  Code.get_name (Some 0x20) = "32".
Proof.
  destruct get_name_cases as (_ & Hnamed & Hother).
  split.
  - apply Hnamed. unfold Code.members. cbn [In].
    do 21 right. left. reflexivity.
  - apply Hother. apply unregistered_first_member. reflexivity.
Defined.

(** ** The response constructor, argument by argument *)

Lemma out_of_byte_range (c : Z) :
  (c <? 0) || (c >? 0xFF) = negb ((0 <=? c) && (c <=? 0xFF)).
Proof.
  rewrite Z.gtb_ltb.
  destruct (Z.ltb_spec c 0), (Z.ltb_spec 0xFF c), (Z.leb_spec 0 c), (Z.leb_spec c 0xFF);
    cbn; lia || reflexivity.
Qed.

(** [Response.__init__] returns an object exactly for the arguments
    described by [Response_init_accepts], and raises [ValueError] for all
    others: a service that is neither [None], a service class nor a service
    instance, data that is not [bytes] or is given for a service declaring
    no response data, a code that is no integer of [0, 0xFF]. *)
Theorem Response_init_accepts_or_raises (service_arg code_arg data_arg : pyval) :
  if Response_init_accepts service_arg code_arg data_arg
  then exists r, Response.init service_arg code_arg data_arg = Return r
  else raises_ValueError (Response.init service_arg code_arg data_arg).
Proof.
  unfold Response_init_accepts, raises_ValueError, Response.init.
  destruct service_arg as [| | | |cl|inst| | | |];
    cbn [bind andb as_service Response.service Response.cls];
    try (eexists; reflexivity);
    (destruct data_arg;
     cbn [is_not_None bind andb];
     try (destruct (services.has_response_data _); cbn [negb bind andb]);
     try (eexists; reflexivity);
     (destruct code_arg; cbn [bind andb];
      try (eexists; reflexivity);
      rewrite out_of_byte_range;
      destruct ((0 <=? _) && (_ <=? _)); cbn [negb bind];
      eexists; reflexivity)).
Qed.

(** Every object [Response.__init__] returns is consistent: it is valid
    exactly when both service and code are set, its reason is empty exactly
    when it is valid, its code name is the name of its code, it is positive
    exactly when it has a code that [is_negative] rejects, its code is a
    byte, and it carries data only for no service or a service that declares
    response data. *)
Theorem Response_init_invariants
    (service_arg code_arg data_arg : pyval) (r : Response.t) :
  Response.init service_arg code_arg data_arg = Return r ->
  (Response.valid r = true <->
   Response.service r <> None /\ Response.code r <> None) /\
  Response.invalid_reason r =
    (if Response.valid r then "" else "Object not initialized") /\
  Response.code_name r = Code.get_name (Response.code r) /\
  Response.positive r =
    match Response.code r with
    | Some c => negb (Code.is_negative (Some c))
    | None => false
    end /\
  (forall c, Response.code r = Some c -> 0 <= c <= 0xFF) /\
  (forall s b, Response.service r = Some s -> Response.data r = Some b ->
               services.has_response_data (Response.cls s) = true).
Proof.
  unfold Response.init.
  destruct service_arg as [| | | |cl|inst| | | |];
    cbn [bind Response.service Response.cls];
    try discriminate;
    (destruct data_arg; cbn [is_not_None bind];
     try (destruct (services.has_response_data _) eqn:Hhas; cbn [negb bind]);
     try discriminate;
     (destruct code_arg as [|n| | | | | | | |]; cbn [bind];
      try discriminate;
      try (rewrite out_of_byte_range;
           destruct ((0 <=? n) && (n <=? 0xFF)) eqn:Hrange; cbn [negb bind];
           [apply andb_true_iff in Hrange; destruct Hrange as [Hlo Hhi];
            apply Z.leb_le in Hlo; apply Z.leb_le in Hhi;
            destruct (Code.is_negative (Some n)) eqn:Hneg; cbn [negb]
           | discriminate]);
      intros Hr; inversion Hr; subst r; clear Hr;
      cbn [Response.set_data Response.set_code Response.set_code_name
           Response.set_positive Response.set_valid Response.set_invalid_reason
           Response.service Response.positive Response.code Response.code_name
           Response.valid Response.invalid_reason Response.data Response.cls];
      rewrite ?Hneg;
      (split; [split; [intros H; try discriminate H; split; discriminate
                      | intros [H1 H2]; try reflexivity; congruence]|]);
      (split; [reflexivity|]);
      (split; [reflexivity|]);
      (split; [reflexivity|]);
      (split; [intros c' Hc; inversion Hc; subst; lia|]);
      intros s' b' Hs Hb; inversion Hs; subst; try discriminate Hb; assumption)).
Qed.

Lemma Response_init_invariants_witness :
  Response.init (PyServiceClass Demo.ReadDataByIdentifier) (PyInt 0x31) (PyBytes [x01])
  = Return (built_response Demo.ReadDataByIdentifier 0x31 (Some [x01])) /\
  Response.positive (built_response Demo.ReadDataByIdentifier 0x31 (Some [x01])) = false /\
  Response.invalid_reason (built_response Demo.ReadDataByIdentifier 0x31 (Some [x01])) = "".
Proof.
  split; [reflexivity|].
  destruct (Response_init_invariants
              (PyServiceClass Demo.ReadDataByIdentifier) (PyInt 0x31) (PyBytes [x01])
              (built_response Demo.ReadDataByIdentifier 0x31 (Some [x01])) eq_refl)
    as (_ & Hreason & _ & Hpositive & _).
  split; [exact Hpositive | exact Hreason].
Defined.

(** ** What a parsed response looks like *)

(** The shapes of a payload, as [Response.from_payload] tells them apart. *)
Lemma response_payload_shape (reg : services.registry) (p : bytes) :
  p = [] \/
  (exists b0 rest,
      p = b0 :: rest /\ services.cls_from_response_id reg (int_of_byte b0) = None) \/
  (exists b0 s,
      p = [b0] /\ services.cls_from_response_id reg (int_of_byte b0) = Some s) \/
  (exists b0 b1 rest s,
      p = b0 :: b1 :: rest /\
      services.cls_from_response_id reg (int_of_byte b0) = Some s /\ b1 <> x7f) \/
  (exists b0 s,
      p = [b0; x7f] /\ services.cls_from_response_id reg (int_of_byte b0) = Some s) \/
  (exists b0 b2 rest s,
      p = b0 :: x7f :: b2 :: rest /\
      services.cls_from_response_id reg (int_of_byte b0) = Some s).
Proof.
  destruct p as [|b0 rest]; [now left|]. right.
  destruct (services.cls_from_response_id reg (int_of_byte b0)) as [s|] eqn:Hreg;
    [|left; now exists b0, rest].
  right. destruct rest as [|b1 rest]; [left; now exists b0, s|]. right.
  destruct (Byte.byte_eq_dec b1 x7f) as [->|Hb1]; [|left; now exists b0, b1, rest, s].
  right. destruct rest as [|b2 rest]; [left; now exists b0, s|].
  right. now exists b0, b2, rest, s.
Qed.

(** Rewrites the parse equation [H] of a payload of known shape into the
    parsed record. *)
Ltac parsed_record H :=
  match type of H with
  | Response.from_payload ?reg [] = _ =>
      rewrite (from_payload_empty reg) in H
  | Response.from_payload ?reg [?b0; x7f] = _ =>
      match goal with
      | Hreg : services.cls_from_response_id reg (int_of_byte b0) = Some ?s |- _ =>
          rewrite (from_payload_marker_only reg b0 s Hreg) in H
      end
  | Response.from_payload ?reg (?b0 :: x7f :: ?b2 :: ?rest) = _ =>
      match goal with
      | Hreg : services.cls_from_response_id reg (int_of_byte b0) = Some ?s |- _ =>
          rewrite (from_payload_negative reg b0 b2 rest s Hreg) in H
      end
  | Response.from_payload ?reg (?b0 :: ?b1 :: ?rest) = _ =>
      match goal with
      | Hreg : services.cls_from_response_id reg (int_of_byte b0) = Some ?s,
        Hb1 : b1 <> x7f |- _ =>
          rewrite (from_payload_positive reg b0 b1 rest s Hreg Hb1) in H
      end
  | Response.from_payload ?reg [?b0] = _ =>
      match goal with
      | Hreg : services.cls_from_response_id reg (int_of_byte b0) = Some ?s |- _ =>
          rewrite (from_payload_single reg b0 s Hreg) in H
      end
  | Response.from_payload ?reg (?b0 :: ?rest) = _ =>
      match goal with
      | Hreg : services.cls_from_response_id reg (int_of_byte b0) = None |- _ =>
          rewrite (from_payload_unknown_service reg b0 rest Hreg) in H
      end
  end.

(** Splits a parse equation [H : from_payload reg p = Return r] into the
    six shapes of [p], with [r] replaced by the parsed record. *)
Ltac by_payload_shape reg p H :=
  destruct (response_payload_shape reg p)
    as [-> | [(?b0 & ?rest & -> & ?Hreg) | [(?b0 & ?s & -> & ?Hreg)
       | [(?b0 & ?b1 & ?rest & ?s & -> & ?Hreg & ?Hb1) | [(?b0 & ?s & -> & ?Hreg)
       | (?b0 & ?b2 & ?rest & ?s & -> & ?Hreg)]]]]];
  parsed_record H;
  inversion H; subst; clear H.

(** [Response.from_payload] marks a response invalid for the four
    malformed shapes and for no other payload. *)
Theorem Response_from_payload_invalid_iff_malformed
    (reg : services.registry) (p : bytes) (r : Response.t) :
  Response.from_payload reg p = Return r ->
  (Response.valid r = false <-> malformed_response reg p).
Proof.
  intros H. unfold malformed_response.
  by_payload_shape reg p H; cbn [Response.valid].
  - split; [now left | reflexivity].
  - split; [intros _; right; left; now exists b0, rest | reflexivity].
  - destruct (services.has_response_data s) eqn:Hhas; cbn [Response.valid].
    + split; [intros _; right; right; left; now exists b0, s | reflexivity].
    + split; [discriminate|].
      intros [H | [(b & rest & H & Hno) | [(b & s' & H & Hreg' & Hdata) | (b & H)]]];
        try discriminate H; inversion H; subst; congruence.
  - split; [discriminate|].
    intros [H | [(b & rest' & H & Hno) | [(b & s' & H & Hreg' & Hdata) | (b & H)]]];
      try discriminate H; inversion H; subst; congruence.
  - split; [intros _; right; right; right; now exists b0 | reflexivity].
  - split; [discriminate|].
    intros [H | [(b & rest' & H & Hno) | [(b & s' & H & Hreg' & Hdata) | (b & H)]]];
      try discriminate H; inversion H; subst; congruence.
Qed.

Lemma Response_from_payload_invalid_iff_malformed_witness :
  exists r,
    Response.from_payload Demo.registry [x62; x01; x02] = Return r /\
    Response.valid r = true /\
    (Response.valid r = false <-> malformed_response Demo.registry [x62; x01; x02]).
Proof.
  eexists. split; [reflexivity|]. split; [reflexivity|].
  apply (Response_from_payload_invalid_iff_malformed Demo.registry [x62; x01; x02]).
  reflexivity.
Defined.

(** Every response [Response.from_payload] returns is consistent in the
    following sense: when valid it has a service class the registry gave for
    byte 0 and a code that is a byte; when positive it is valid with code 0;
    its code name is the name of its code; its reason is never empty, also
    when it is valid (the reason of the constructor stays); and its data,
    when present, is the non-empty rest of the payload after one header
    byte (positive) or three (negative). *)
Theorem Response_from_payload_invariants
    (reg : services.registry) (p : bytes) (r : Response.t) :
  Response.from_payload reg p = Return r ->
  (Response.valid r = true ->
   exists b0 rest s c,
     p = b0 :: rest /\
     services.cls_from_response_id reg (int_of_byte b0) = Some s /\
     Response.service r = Some (Response.OfClass s) /\
     Response.code r = Some c /\ 0 <= c <= 0xFF) /\
  (Response.positive r = true ->
   Response.valid r = true /\ Response.code r = Some Code.PositiveResponse) /\
  Response.code_name r = Code.get_name (Response.code r) /\
  Response.invalid_reason r <> "" /\
  (forall d, Response.data r = Some d ->
     d <> [] /\
     exists header,
       p = header ++ d /\
       len header = if Response.positive r then 1 else 3).
Proof.
  intros H.
  by_payload_shape reg p H;
    try match goal with
        | |- context [if services.has_response_data ?s then _ else _] =>
            destruct (services.has_response_data s) eqn:Hhas
        end;
    cbn [Response.valid Response.positive Response.code Response.code_name
         Response.invalid_reason Response.data Response.service];
    (split;
     [ try discriminate
     | split;
       [ try discriminate
       | split;
         [ reflexivity
         | split; [discriminate | try (intros d Hd; discriminate Hd)] ] ] ]).
  - (* one byte, no response data declared *)
    intros _. exists b0, [], s, 0. repeat split; (reflexivity || assumption || lia).
  - intros _. split; reflexivity.
  - (* positive *)
    intros _. exists b0, (b1 :: rest), s, 0. repeat split; (reflexivity || assumption || lia).
  - intros _. split; reflexivity.
  - intros d Hd. inversion Hd; subst d. split; [discriminate|].
    exists [b0]. split; reflexivity.
  - (* negative *)
    intros _. exists b0, (x7f :: b2 :: rest), s, (int_of_byte b2).
    pose proof (Byte.to_N_bounded b2). unfold int_of_byte.
    repeat split; (reflexivity || assumption || lia).
  - intros d Hd. destruct rest as [|b3 rest]; [discriminate Hd|].
    inversion Hd; subst d. split; [discriminate|].
    exists [b0; x7f; b2]. split; reflexivity.
Qed.

Lemma Response_from_payload_invariants_witness :
  exists r,
    Response.from_payload Demo.registry [x62; x7f; x31; x01] = Return r /\
    Response.valid r = true /\
    Response.invalid_reason r <> "" /\
    Response.data r = Some [x01].
Proof.
  eexists. split; [reflexivity|]. split; [reflexivity|].
  split; [|reflexivity].
  apply (Response_from_payload_invariants Demo.registry [x62; x7f; x31; x01]).
  reflexivity.
Defined.

(** ** Parsing, then serialising *)

Lemma Demo_response_ids_sound : response_ids_sound Demo.registry.
Proof.
  intros n s H. unfold Demo.registry in H. cbn [services.cls_from_response_id] in H.
  apply find_some in H. destruct H as [_ H]. now apply Z.eqb_eq in H.
Qed.

Lemma Demo_request_ids_sound : request_ids_sound Demo.registry.
Proof.
  intros n s H. unfold Demo.registry in H. cbn [services.cls_from_request_id] in H.
  apply find_some in H. destruct H as [_ H]. now apply Z.eqb_eq in H.
Qed.

(** In a registry that answers each response id with a class of that id,
    a valid parsed response serialises back to the payload it came from,
    provided its service declares response data whenever data was parsed
    (otherwise [get_payload] leaves the data out). *)
Theorem Response_parse_then_serialise
    (reg : services.registry) (p : bytes) (r : Response.t) :
  response_ids_sound reg ->
  Response.from_payload reg p = Return r ->
  Response.valid r = true ->
  (forall s d, Response.service r = Some s -> Response.data r = Some d ->
               services.has_response_data (Response.cls s) = true) ->
  Response.get_payload r = Return p.
Proof.
  intros Hsound H.
  by_payload_shape reg p H;
    try match goal with
        | |- context [if services.has_response_data ?s then _ else _] =>
            destruct (services.has_response_data s) eqn:Hhas
        end;
    cbn [Response.valid]; try discriminate; intros _ Hdata;
    pose proof (Hsound _ _ Hreg) as Hid;
    pose proof (int_of_byte_range b0) as Hb0.
  - (* one byte *)
    match goal with
    | |- Response.get_payload ?r = _ =>
        rewrite (Response_get_payload_built r (Response.OfClass s) 0 eq_refl eq_refl)
          by (cbn [Response.cls]; lia)
    end.
    cbn [Response.cls Response.positive Response.data app].
    now rewrite Hid, byte_of_int_of_byte.
  - (* positive *)
    match goal with
    | |- Response.get_payload ?r = _ =>
        rewrite (Response_get_payload_built r (Response.OfClass s) 0 eq_refl eq_refl)
          by (cbn [Response.cls]; lia)
    end.
    cbn [Response.cls Response.positive Response.data app].
    pose proof (Hdata (Response.OfClass s) (b1 :: rest) eq_refl eq_refl) as Hhas.
    cbn [Response.cls] in Hhas.
    now rewrite Hhas, Hid, byte_of_int_of_byte.
  - (* negative *)
    pose proof (int_of_byte_range b2) as Hb2.
    match goal with
    | |- Response.get_payload ?r = _ =>
        rewrite (Response_get_payload_built r (Response.OfClass s) (int_of_byte b2)
                   eq_refl eq_refl)
          by (cbn [Response.cls]; lia)
    end.
    cbn [Response.cls Response.positive Response.data app].
    rewrite Hid, !byte_of_int_of_byte.
    destruct rest as [|b3 rest]; [reflexivity|].
    pose proof (Hdata (Response.OfClass s) (b3 :: rest) eq_refl eq_refl) as Hhas.
    cbn [Response.cls] in Hhas.
    now rewrite Hhas.
Qed.

Lemma Response_parse_then_serialise_witness :
  exists r,
    Response.from_payload Demo.registry [x62; x7f; x31; x01] = Return r /\
    Response.get_payload r = Return [x62; x7f; x31; x01].
Proof.
  eexists. split; [reflexivity|].
  apply (Response_parse_then_serialise Demo.registry [x62; x7f; x31; x01]).
  - exact Demo_response_ids_sound.
  - reflexivity.
  - reflexivity.
  - intros s d Hs _. inversion Hs. reflexivity.
Defined.

(** ** Lengths *)

Lemma struct_pack_B_one_byte (n : Z) (l : bytes) :
  struct_pack_B n = Return l -> exists b, l = [b].
Proof.
  unfold struct_pack_B.
  destruct ((0 <=? n) && (n <=? 255)); [|discriminate].
  destruct (Byte.of_N (Z.to_N n)) as [b|]; [|discriminate].
  intros H. inversion H. now exists b.
Qed.

Lemma Response_payload_not_empty (r : Response.t) (p : bytes) :
  Response.get_payload r = Return p -> 1 <= len p.
Proof.
  unfold Response.get_payload.
  destruct (Response.service r) as [s|]; [|discriminate].
  destruct (Response.code r) as [c|]; [|discriminate].
  cbn [bind].
  destruct (struct_pack_B (services.response_id (Response.cls s))) as [l|] eqn:Hl;
    [|discriminate].
  apply struct_pack_B_one_byte in Hl. destruct Hl as [b ->]. cbn [bind].
  destruct (Response.positive r); cbn [negb bind].
  - intros H. inversion H; subst p.
    destruct (Response.data r); [destruct (services.has_response_data _)|];
      cbn [app]; len_settle.
  - destruct (struct_pack_B c) as [l|]; [|discriminate]. cbn [bind].
    intros H. inversion H; subst p.
    destruct (Response.data r); [destruct (services.has_response_data _)|];
      cbn [app]; len_settle.
Qed.

Lemma Request_payload_not_empty (r : Request.t) (p : bytes) :
  Request.get_payload r = Return p -> 1 <= len p.
Proof.
  unfold Request.get_payload.
  destruct (Request.service r) as [|[s|]]; cbn [Request.read bind]; try discriminate.
  destruct (services.use_subfunction s).
  - destruct (Request.subfunction r) as [|[sub|]]; cbn [Request.read bind];
      try discriminate.
    destruct (struct_pack_B (services.request_id s)) as [l|] eqn:Hl; [|discriminate].
    apply struct_pack_B_one_byte in Hl. destruct Hl as [b ->]. cbn [bind].
    destruct (struct_pack_B _) as [l|]; [|discriminate]. cbn [bind].
    destruct (Request.data r) as [[str|d]|]; try discriminate;
      intros H; inversion H; subst p; cbn [app]; len_settle.
  - cbn [bind].
    destruct (struct_pack_B (services.request_id s)) as [l|] eqn:Hl; [|discriminate].
    apply struct_pack_B_one_byte in Hl. destruct Hl as [b ->]. cbn [bind].
    destruct (Request.data r) as [[str|d]|]; try discriminate;
      intros H; inversion H; subst p; cbn [app]; len_settle.
Qed.

(** [Response.__len__] is the length of the payload when [get_payload]
    returns one, which is then at least 1, and it is 0 exactly when
    [get_payload] raises: a length of 0 tells an object that cannot be
    serialised. *)
Theorem Response_len_zero_iff_raises (r : Response.t) :
  (forall p, Response.get_payload r = Return p ->
             Response_len r = len p /\ 1 <= Response_len r) /\
  (Response_len r = 0 <-> raises (Response.get_payload r)).
Proof.
  unfold Response_len, raises.
  destruct (Response.get_payload r) as [p|e] eqn:Hp.
  - pose proof (Response_payload_not_empty r p Hp) as Hlen. split.
    + intros q Hq. inversion Hq; subst q. split; [reflexivity | exact Hlen].
    + split; [lia | intros [e He]; discriminate He].
  - split; [discriminate|]. split; [now exists e | reflexivity].
Qed.

(** [Request.__len__] is the length of the payload when [get_payload]
    returns one, which is then at least 1, and it is 0 exactly when
    [get_payload] raises. *)
Theorem Request_len_zero_iff_raises (r : Request.t) :
  (forall p, Request.get_payload r = Return p ->
             Request_len r = len p /\ 1 <= Request_len r) /\
  (Request_len r = 0 <-> raises (Request.get_payload r)).
Proof.
  unfold Request_len, raises.
  destruct (Request.get_payload r) as [p|e] eqn:Hp.
  - pose proof (Request_payload_not_empty r p Hp) as Hlen. split.
    + intros q Hq. inversion Hq; subst q. split; [reflexivity | exact Hlen].
    + split; [lia | intros [e He]; discriminate He].
  - split; [discriminate|]. split; [now exists e | reflexivity].
Qed.

(** ** The request constructor and parser *)

(** [Request.__init__] returns an object exactly for the arguments
    described by [Request_init_accepts] and raises [ValueError] for all
    others: a service that is neither [None], a service class nor a service
    instance, a subfunction beside a service class that is neither [None]
    nor an integer, data that is neither [None] nor a [str]. *)
Theorem Request_init_accepts_or_raises
    (service_arg subfunction_arg : pyval) (flag : bool) (data_arg : pyval) :
  if Request_init_accepts service_arg subfunction_arg data_arg
  then exists r, Request.init service_arg subfunction_arg flag data_arg = Return r
  else raises_ValueError (Request.init service_arg subfunction_arg flag data_arg).
Proof.
  unfold Request_init_accepts, raises_ValueError, Request.init.
  destruct service_arg; cbn [bind andb];
    try (eexists; reflexivity);
    try (destruct subfunction_arg; cbn [bind andb]; try (eexists; reflexivity));
    destruct data_arg; cbn [bind]; eexists; reflexivity.
Qed.

Lemma lor_suppress_bit (sub : Z) :
  0 <= sub <= 0x7F -> Z.lor sub 0x80 = sub + 0x80.
Proof.
  intros Hsub. assert (Hb : 0 <= sub <= 0xFF) by lia.
  revert sub Hb Hsub. apply (byte_range_ind (fun sub => 0 <= sub <= 0x7F -> _)).
  intros b; destruct b; vm_compute; intros [H1 H2];
    first [ exfalso; apply H2; reflexivity | reflexivity ].
Qed.

(** A request built from a service class whose request id is a byte, a
    subfunction of seven bits and no data serialises to the request id,
    followed, when the service uses a subfunction, by the subfunction plus
    0x80 if the positive response is suppressed; for a service without
    subfunction the subfunction given to the constructor is not sent. *)
Theorem Request_built_payload (s : services.BaseService) (sub : Z) (flag : bool) :
  0 <= services.request_id s <= 0xFF ->
  0 <= sub <= 0x7F ->
  exists r,
    Request.init (PyServiceClass s) (PyInt sub) flag PyNone = Return r /\
    Request.get_payload r =
    Return (request_id_byte s
            :: if services.use_subfunction s
               then [byte_of_int (if flag then sub + 0x80 else sub)]
               else []).
Proof.
  intros Hrid Hsub.
  exists {| Request.service := Request.Assigned (Some s);
            Request.subfunction := Request.Assigned (Some sub);
            Request.suppress_positive_response := flag;
            Request.data := None |}.
  split; [reflexivity|].
  assert (Hwire : (if flag then Z.lor sub 0x80 else sub)
                  = (if flag then sub + 0x80 else sub)).
  { destruct flag; [apply (lor_suppress_bit sub Hsub) | reflexivity]. }
  destruct (services.use_subfunction s) eqn:Huse.
  - match goal with
    | |- Request.get_payload ?r = _ =>
        rewrite (Request_get_payload_subfunction r s sub eq_refl Huse eq_refl Hrid)
    end.
    + unfold wire_subfunction.
      cbn [Request.suppress_positive_response Request.data with_data].
      now rewrite Hwire.
    + unfold wire_subfunction. cbn [Request.suppress_positive_response].
      rewrite Hwire. destruct flag; lia.
  - match goal with
    | |- Request.get_payload ?r = _ =>
        rewrite (Request_get_payload_plain r s eq_refl Huse Hrid)
    end.
    reflexivity.
Qed.

Lemma Request_built_payload_witness :
  exists r,
    Request.init (PyServiceClass Demo.ECUReset) (PyInt 0x01) true PyNone = Return r /\
    Request.get_payload r = Return [x11; x81].
Proof.
  refine (Request_built_payload Demo.ECUReset 0x01 true _ _); cbn; lia.
Defined.

Lemma parsed_subfunction_range (b : byte) :
  0 <= Z.land (int_of_byte b) 0x7F <= 0x7F.
Proof. destruct b; cbv; split; discriminate. Qed.

Lemma parsed_subfunction_wire (b : byte) :
  (if (if Z.land (int_of_byte b) 0x80 >? 0 then true else false)
   then Z.lor (Z.land (int_of_byte b) 0x7F) 0x80
   else Z.land (int_of_byte b) 0x7F) = int_of_byte b.
Proof. destruct b; reflexivity. Qed.

(** [Request.from_payload] returns a request for every byte sequence. Its
    service is what the registry gives for byte 0 ([None] for the empty
    payload); its subfunction is assigned and, when it is an integer, fits
    in seven bits; its data, when present, is a non-empty [bytes] object. *)
Theorem Request_from_payload_invariants (reg : services.registry) (p : bytes) :
  exists r,
    Request.from_payload reg p = Return r /\
    Request.service r =
      Request.Assigned match p with
                       | [] => None
                       | b0 :: _ => services.cls_from_request_id reg (int_of_byte b0)
                       end /\
    (exists sub, Request.subfunction r = Request.Assigned sub /\
                 forall n, sub = Some n -> 0 <= n <= 0x7F) /\
    (forall d, Request.data r = Some d -> exists b rest, d = Request.OfBytes (b :: rest)).
Proof.
  assert (Hdata : forall rest d, parsed_data rest = Some d ->
                                 exists b tl, d = Request.OfBytes (b :: tl)).
  { intros [|b tl] d H; [discriminate H|]. inversion H. now exists b, tl. }
  destruct p as [|b0 rest].
  - eexists. split; [apply Request_from_payload_empty|].
    cbn [Request.service Request.subfunction Request.data].
    split; [reflexivity|]. split; [|discriminate].
    exists None. split; [reflexivity | discriminate].
  - destruct (services.cls_from_request_id reg (int_of_byte b0)) as [s|] eqn:Hreg.
    + destruct (services.use_subfunction s) eqn:Hsub.
      * destruct rest as [|b1 rest].
        -- eexists. split; [apply (Request_from_payload_header_only reg b0 s Hreg Hsub)|].
           cbn [Request.service Request.subfunction Request.data].
           split; [reflexivity|]. split; [|discriminate].
           exists None. split; [reflexivity | discriminate].
        -- eexists.
           split; [apply (Request_from_payload_subfunction reg b0 b1 rest s Hreg Hsub)|].
           cbn [Request.service Request.subfunction Request.data].
           split; [reflexivity|]. split; [|apply Hdata].
           eexists. split; [reflexivity|].
           intros n Hn. inversion Hn. apply parsed_subfunction_range.
      * eexists. split; [apply (Request_from_payload_plain reg b0 rest s Hreg Hsub)|].
        cbn [Request.service Request.subfunction Request.data].
        split; [reflexivity|]. split; [|apply Hdata].
        exists None. split; [reflexivity | discriminate].
    + eexists. split; [apply (Request_from_payload_unknown_service reg b0 rest Hreg)|].
      cbn [Request.service Request.subfunction Request.data].
      split; [reflexivity|]. split; [|discriminate].
      exists None. split; [reflexivity | discriminate].
Qed.

(** In a registry that answers each request id with a class of that id, a
    parsed request with a service serialises back to the payload it came
    from; the one exception is a single byte for a service that uses a
    subfunction, where the parsed request has no subfunction and
    [get_payload] raises. *)
Theorem Request_parse_then_serialise
    (reg : services.registry) (p : bytes) (r : Request.t) (s : services.BaseService) :
  request_ids_sound reg ->
  Request.from_payload reg p = Return r ->
  Request.service r = Request.Assigned (Some s) ->
  if services.use_subfunction s && (len p <? 2)
  then raises (Request.get_payload r)
  else Request.get_payload r = Return p.
Proof.
  intros Hsound Hparse Hs.
  destruct p as [|b0 rest].
  - rewrite Request_from_payload_empty in Hparse. inversion Hparse; subst r.
    discriminate Hs.
  - destruct (services.cls_from_request_id reg (int_of_byte b0)) as [s'|] eqn:Hreg.
    2:{ rewrite (Request_from_payload_unknown_service reg b0 rest Hreg) in Hparse.
        inversion Hparse; subst r. discriminate Hs. }
    pose proof (Hsound _ _ Hreg) as Hid.
    pose proof (int_of_byte_range b0) as Hb0.
    destruct (services.use_subfunction s') eqn:Hsub.
    + destruct rest as [|b1 rest].
      * rewrite (Request_from_payload_header_only reg b0 s' Hreg Hsub) in Hparse.
        inversion Hparse; subst r. inversion Hs; subst s'.
        rewrite Hsub. cbn [andb]. change (len [b0] <? 2) with true. cbv iota.
        unfold Request.get_payload.
        cbn [Request.service Request.subfunction Request.read bind].
        rewrite Hsub. eexists. reflexivity.
      * rewrite (Request_from_payload_subfunction reg b0 b1 rest s' Hreg Hsub) in Hparse.
        inversion Hparse; subst r. inversion Hs; subst s'.
        rewrite Hsub. cbn [andb].
        replace (len (b0 :: b1 :: rest) <? 2) with false
          by (symmetry; apply Z.ltb_ge; len_settle).
        pose proof (parsed_subfunction_wire b1) as Hwire.
        pose proof (int_of_byte_range b1) as Hb1.
        match goal with
        | |- Request.get_payload ?r = _ =>
            rewrite (Request_get_payload_subfunction r s _ eq_refl Hsub eq_refl)
        end.
        -- unfold wire_subfunction.
           cbn [Request.suppress_positive_response Request.data].
           rewrite Hwire, Hid, !byte_of_int_of_byte.
           destruct rest; reflexivity.
        -- lia.
        -- unfold wire_subfunction. cbn [Request.suppress_positive_response].
           rewrite Hwire. lia.
    + rewrite (Request_from_payload_plain reg b0 rest s' Hreg Hsub) in Hparse.
      inversion Hparse; subst r. inversion Hs; subst s'.
      rewrite Hsub. cbn [andb].
      match goal with
      | |- Request.get_payload ?r = _ =>
          rewrite (Request_get_payload_plain r s eq_refl Hsub) by lia
      end.
      cbn [Request.data]. rewrite Hid, byte_of_int_of_byte.
      destruct rest; reflexivity.
Qed.

Lemma Request_parse_then_serialise_witness :
  exists r,
    Request.from_payload Demo.registry [x11; x81; x2a] = Return r /\
    Request.get_payload r = Return [x11; x81; x2a].
Proof.
  eexists. split; [reflexivity|].
  refine (Request_parse_then_serialise Demo.registry [x11; x81; x2a] _ Demo.ECUReset
            Demo_request_ids_sound eq_refl eq_refl).
Defined.

Lemma Request_init_data_does_not_serialise_witness :
  raises (Request.get_payload
            {| Request.service := Request.Assigned (Some Demo.ECUReset);
               Request.subfunction := Request.Assigned (Some 0x01);
               Request.suppress_positive_response := false;
               Request.data := Some (Request.OfStr "ab") |}).
Proof.
  refine (Request_init_data_does_not_serialise Demo.ECUReset 0x01 false (PyStr "ab")
            _ _ eq_refl).
  discriminate.
Defined.

(** ** Parsed against constructed *)

(** The parser and the constructor classify differently: for code 0 and
    for every code that is no named constant, the payload response id,
    [0x7F], code parses to a valid response that is not positive, while the
    constructor builds from the same service and code a valid response that
    is positive. *)
Theorem parsed_negative_built_positive
    (reg : services.registry) (s : services.BaseService) (c : Z) :
  resolvable_response reg s ->
  0 <= c <= 0xFF ->
  Code.is_negative (Some c) = false ->
  exists r r',
    Response.from_payload reg [response_id_byte s; x7f; byte_of_int c] = Return r /\
    Response.init (PyServiceClass s) (PyInt c) PyNone = Return r' /\
    Response.code r = Some c /\ Response.code r' = Some c /\
    Response.valid r = true /\ Response.valid r' = true /\
    Response.positive r = false /\ Response.positive r' = true.
Proof.
  intros [Hrid Hreg] Hc Hneg.
  assert (Hb0 : services.cls_from_response_id reg (int_of_byte (response_id_byte s))
                = Some s).
  { unfold response_id_byte. now rewrite (int_of_byte_of_int _ Hrid). }
  eexists. eexists.
  split; [apply (from_payload_negative reg _ (byte_of_int c) [] s Hb0)|].
  split; [apply (Response_init_built (PyServiceClass s) (Response.OfClass s) c PyNone
                   eq_refl Hc); now left|].
  cbn [Response.code Response.valid Response.positive].
  rewrite (int_of_byte_of_int c Hc), Hneg. repeat split.
Qed.

Lemma parsed_negative_built_positive_witness :
  exists r r',
    Response.from_payload Demo.registry [x62; x7f; x20] = Return r /\
    Response.init (PyServiceClass Demo.ReadDataByIdentifier) (PyInt 0x20) PyNone
      = Return r' /\
    Response.code r = Some 0x20 /\ Response.code r' = Some 0x20 /\
    Response.valid r = true /\ Response.valid r' = true /\
    Response.positive r = false /\ Response.positive r' = true.
Proof.
  refine (parsed_negative_built_positive Demo.registry Demo.ReadDataByIdentifier 0x20
            _ _ _).
  - split; [cbn; lia | reflexivity].
  - lia.
  - reflexivity.
Defined.

(** ** Security levels *)

Lemma land_low_byte (n mask : Z) :
  Z.land 0xFF mask = mask -> Z.land n mask = Z.land (n mod 0x100) mask.
Proof.
  intros Hmask. rewrite <- Hmask at 1. rewrite Z.land_assoc.
  change 0xFF with (Z.ones 8). rewrite Z.land_ones by lia. reflexivity.
Qed.

Lemma land_FE_byte (m : Z) :
  0 <= m <= 0xFF -> Z.land m 0xFE = 2 * (m / 2).
Proof.
  revert m. apply byte_range_ind. intros b. destruct b; reflexivity.
Qed.

(** [SecurityLevel] keeps, for every integer, the low byte of the level id
    with bit 0 cleared: twice the half of the id modulo 256. So the stored
    level is an even byte, an even byte is kept, and an odd byte is stored
    as the even byte below it. *)
Theorem SecurityLevel_levelid_value (n : Z) :
  SecurityLevel.levelid (SecurityLevel.init n) = 2 * ((n mod 0x100) / 2) /\
  0 <= SecurityLevel.levelid (SecurityLevel.init n) <= 0xFE /\
  Z.even (SecurityLevel.levelid (SecurityLevel.init n)) = true /\
  SecurityLevel.levelid (SecurityLevel.init (2 * n)) =
  SecurityLevel.levelid (SecurityLevel.init (2 * n + 1)).
Proof.
  assert (Hval : forall k, SecurityLevel.levelid (SecurityLevel.init k)
                           = 2 * ((k mod 0x100) / 2)).
  { intros k. cbn [SecurityLevel.init SecurityLevel.levelid].
    rewrite (land_low_byte k 0xFE eq_refl).
    apply land_FE_byte. pose proof (Z.mod_pos_bound k 0x100). lia. }
  split; [apply Hval|]. rewrite !Hval.
  pose proof (Z.mod_pos_bound n 0x100 eq_refl) as Hn.
  split; [|split].
  - pose proof (Z.div_mod (n mod 0x100) 2). pose proof (Z.mod_pos_bound (n mod 0x100) 2).
    lia.
  - rewrite Z.even_mul. reflexivity.
  - f_equal.
    pose proof (Z.div_mod (2 * n) 0x100). pose proof (Z.mod_pos_bound (2 * n) 0x100).
    pose proof (Z.div_mod (2 * n + 1) 0x100).
    pose proof (Z.mod_pos_bound (2 * n + 1) 0x100).
    pose proof (Z.div_mod ((2 * n) mod 0x100) 2).
    pose proof (Z.mod_pos_bound ((2 * n) mod 0x100) 2).
    pose proof (Z.div_mod ((2 * n + 1) mod 0x100) 2).
    pose proof (Z.mod_pos_bound ((2 * n + 1) mod 0x100) 2).
    lia.
Qed.

(** ** Address and length identifiers *)

(** [AddressAndLengthIdentifier.make] returns for integers [size] of
    [1, 4] and [addr] of [1, 5] the byte [16 * size + addr], and raises
    [ValueError] for every other pair of arguments. *)
Theorem AddressAndLengthIdentifier_make_cases (size addr : pyval) :
  match size, addr with
  | PyInt s, PyInt a =>
      if ((1 <=? s) && (s <=? 4)) && ((1 <=? a) && (a <=? 5))
      then AddressAndLengthIdentifier.make size addr = Return (16 * s + a)
      else raises_ValueError (AddressAndLengthIdentifier.make size addr)
  | _, _ => raises_ValueError (AddressAndLengthIdentifier.make size addr)
  end.
Proof.
  unfold raises_ValueError, AddressAndLengthIdentifier.make.
  destruct size as [|s| | | | | | | |]; try (eexists; reflexivity).
  destruct addr as [|a| | | | | | | |]; try (eexists; reflexivity).
  rewrite !Z.gtb_ltb.
  destruct (Z.leb_spec 1 s), (Z.leb_spec s 4), (Z.leb_spec 1 a), (Z.leb_spec a 5),
    (Z.ltb_spec s 1), (Z.ltb_spec 4 s), (Z.ltb_spec a 1), (Z.ltb_spec 5 a);
    try lia; cbn [andb orb]; try (eexists; reflexivity).
  assert (Hs : s = 1 \/ s = 2 \/ s = 3 \/ s = 4) by lia.
  assert (Ha : a = 1 \/ a = 2 \/ a = 3 \/ a = 4 \/ a = 5) by lia.
  destruct Hs as [-> | [-> | [-> | ->]]];
    destruct Ha as [-> | [-> | [-> | [-> | ->]]]]; reflexivity.
Qed.

(** The byte [make] returns holds the size in its high nibble and the
    address length in its low nibble, so both arguments can be read back
    from it. *)
Theorem AddressAndLengthIdentifier_make_nibbles (size addr : pyval) (v : Z) :
  AddressAndLengthIdentifier.make size addr = Return v ->
  0x11 <= v <= 0x45 /\
  size = PyInt (Z.shiftr v 4) /\
  addr = PyInt (Z.land v 0xF).
Proof.
  unfold AddressAndLengthIdentifier.make.
  destruct size as [|s| | | | | | | |]; try discriminate.
  destruct addr as [|a| | | | | | | |]; try discriminate.
  rewrite !Z.gtb_ltb.
  destruct (Z.ltb_spec s 1), (Z.ltb_spec 4 s); cbn [orb]; try discriminate.
  destruct (Z.ltb_spec a 1), (Z.ltb_spec 5 a); cbn [orb]; try discriminate.
  assert (Hs : s = 1 \/ s = 2 \/ s = 3 \/ s = 4) by lia.
  assert (Ha : a = 1 \/ a = 2 \/ a = 3 \/ a = 4 \/ a = 5) by lia.
  intros Hv. inversion Hv; subst v; clear Hv.
  destruct Hs as [-> | [-> | [-> | ->]]];
    destruct Ha as [-> | [-> | [-> | [-> | ->]]]];
    (split; [cbn; lia | split; reflexivity]).
Qed.

Lemma AddressAndLengthIdentifier_make_nibbles_witness :
  AddressAndLengthIdentifier.make (PyInt 2) (PyInt 3) = Return 0x23 /\
  0x11 <= 0x23 <= 0x45 /\
  PyInt 2 = PyInt (Z.shiftr 0x23 4) /\
  PyInt 3 = PyInt (Z.land 0x23 0xF).
Proof.
  split; [reflexivity|].
  apply (AddressAndLengthIdentifier_make_nibbles (PyInt 2) (PyInt 3) 0x23).
  reflexivity.
Defined.

(** ** The DTC status setter *)

Lemma land_pow2_testbit (byte k : Z) :
  0 <= k ->
  (if Z.land byte (2 ^ k) >? 0 then true else false) = Z.testbit byte k.
Proof.
  intros Hk.
  assert (Hland : Z.land byte (2 ^ k) = if Z.testbit byte k then 2 ^ k else 0).
  { apply Z.bits_inj'. intros n Hn.
    rewrite Z.land_spec, (Z.pow2_bits_eqb k n Hk).
    destruct (Z.eqb_spec k n) as [->|Hne].
    - destruct (Z.testbit byte n) eqn:Hbit; cbn [andb].
      + now rewrite Z.pow2_bits_true.
      + now rewrite Z.bits_0.
    - rewrite andb_false_r.
      destruct (Z.testbit byte k).
      + now rewrite Z.pow2_bits_false.
      + now rewrite Z.bits_0. }
  rewrite Hland. destruct (Z.testbit byte k).
  - assert (0 < 2 ^ k) by (apply Z.pow_pos_nonneg; lia).
    destruct (Z.gtb_spec (2 ^ k) 0); [reflexivity | lia].
  - reflexivity.
Qed.

(** Writing the [status] property with any integer sets each of the eight
    fields to the bit of the integer at the field's position (bit 0 for
    testFailed up to bit 7 for warningIndicatorRequested), whatever the
    fields held before, and leaves the id alone; bits above bit 7 are
    ignored. *)
Theorem Dtc_set_status_bits (d : Dtc.t) (byte : Z) :
  Dtc.id (Dtc.set_status d byte) = Dtc.id d /\
  Dtc.testFailed (Dtc.set_status d byte) = Z.testbit byte 0 /\
  Dtc.testFailedThisOperationCycle (Dtc.set_status d byte) = Z.testbit byte 1 /\
  Dtc.pending (Dtc.set_status d byte) = Z.testbit byte 2 /\
  Dtc.confirmed (Dtc.set_status d byte) = Z.testbit byte 3 /\
  Dtc.testNotCompletedSinceLastClear (Dtc.set_status d byte) = Z.testbit byte 4 /\
  Dtc.testFailedSinceLastClear (Dtc.set_status d byte) = Z.testbit byte 5 /\
  Dtc.testNotCompletedThisOperationCycle (Dtc.set_status d byte) = Z.testbit byte 6 /\
  Dtc.warningIndicatorRequested (Dtc.set_status d byte) = Z.testbit byte 7 /\
  Dtc.set_status d byte = Dtc.set_status d (byte mod 0x100).
Proof.
  unfold Dtc.set_status.
  cbn [Dtc.id Dtc.testFailed Dtc.testFailedThisOperationCycle Dtc.pending
       Dtc.confirmed Dtc.testNotCompletedSinceLastClear
       Dtc.testFailedSinceLastClear Dtc.testNotCompletedThisOperationCycle
       Dtc.warningIndicatorRequested].
  split; [reflexivity|].
  split; [apply (land_pow2_testbit byte 0); lia|].
  split; [apply (land_pow2_testbit byte 1); lia|].
  split; [apply (land_pow2_testbit byte 2); lia|].
  split; [apply (land_pow2_testbit byte 3); lia|].
  split; [apply (land_pow2_testbit byte 4); lia|].
  split; [apply (land_pow2_testbit byte 5); lia|].
  split; [apply (land_pow2_testbit byte 6); lia|].
  split; [apply (land_pow2_testbit byte 7); lia|].
  rewrite <- (land_low_byte byte 0x01 eq_refl), <- (land_low_byte byte 0x02 eq_refl),
    <- (land_low_byte byte 0x04 eq_refl), <- (land_low_byte byte 0x08 eq_refl),
    <- (land_low_byte byte 0x10 eq_refl), <- (land_low_byte byte 0x20 eq_refl),
    <- (land_low_byte byte 0x40 eq_refl), <- (land_low_byte byte 0x80 eq_refl).
  reflexivity.
Qed.

(** ** When serialising raises *)

Lemma struct_pack_B_cases (n : Z) :
  (0 <= n <= 0xFF /\ struct_pack_B n = Return [byte_of_int n]) \/
  (~ 0 <= n <= 0xFF /\ raises (struct_pack_B n)).
Proof.
  destruct (Z_le_gt_dec 0 n) as [Hlo|Hlo]; destruct (Z_le_gt_dec n 0xFF) as [Hhi|Hhi];
    try (right; split; [lia | apply struct_pack_B_out_of_range; lia]).
  left. split; [lia | apply struct_pack_B_byte; lia].
Qed.

(** [Response.get_payload] raises exactly when the service or the code is
    [None], when the response id of the service is no byte, or when the
    response is not positive and its code is no byte; the data never makes
    it raise. *)
Theorem Response_get_payload_raises_iff (r : Response.t) :
  raises (Response.get_payload r) <->
  match Response.service r, Response.code r with
  | Some s, Some c =>
      ~ 0 <= services.response_id (Response.cls s) <= 0xFF \/
      (Response.positive r = false /\ ~ 0 <= c <= 0xFF)
  | _, _ => True
  end.
Proof.
  unfold Response.get_payload, raises.
  destruct (Response.service r) as [s|]; cbn [bind];
    [|split; [trivial | intros _; eexists; reflexivity]].
  destruct (Response.code r) as [c|]; cbn [bind];
    [|split; [trivial | intros _; eexists; reflexivity]].
  destruct (struct_pack_B_cases (services.response_id (Response.cls s)))
    as [[Hrid ->] | [Hrid [e ->]]]; cbn [bind].
  2:{ split; [intros _; now left | intros _; now exists e]. }
  destruct (Response.positive r); cbn [negb bind].
  - split.
    + intros [e He]. discriminate He.
    + intros [H | [H _]]; [contradiction | discriminate H].
  - destruct (struct_pack_B_cases c) as [[Hc ->] | [Hc [e ->]]]; cbn [bind].
    + split.
      * intros [e He]. discriminate He.
      * intros [H | [_ H]]; contradiction.
    + split; [intros _; right; now split | intros _; now exists e].
Qed.

(** [Request.get_payload] raises exactly when the service is unassigned,
    [None] or has a request id that is no byte, when the service uses a
    subfunction and the subfunction is unassigned, [None] or, with the
    suppress bit, no byte, or when the data is a [str]. *)
Theorem Request_get_payload_raises_iff (r : Request.t) :
  raises (Request.get_payload r) <->
  match Request.service r with
  | Request.Assigned (Some s) =>
      ~ 0 <= services.request_id s <= 0xFF \/
      (services.use_subfunction s = true /\
       match Request.subfunction r with
       | Request.Assigned (Some sub) => ~ 0 <= wire_subfunction r sub <= 0xFF
       | _ => True
       end) \/
      (exists str, Request.data r = Some (Request.OfStr str))
  | _ => True
  end.
Proof.
  unfold Request.get_payload, raises.
  destruct (Request.service r) as [|[s|]]; cbn [Request.read bind];
    try (split; [trivial | intros _; eexists; reflexivity]).
  destruct (services.use_subfunction s) eqn:Huse.
  - destruct (Request.subfunction r) as [|[sub|]]; cbn [Request.read bind];
      try (split; [intros _; right; left; now split | intros _; eexists; reflexivity]).
    fold (wire_subfunction r sub).
    destruct (struct_pack_B_cases (services.request_id s))
      as [[Hrid ->] | [Hrid [e ->]]]; cbn [bind].
    2:{ split; [intros _; now left | intros _; now exists e]. }
    destruct (struct_pack_B_cases (wire_subfunction r sub))
      as [[Hw ->] | [Hw [e ->]]]; cbn [bind].
    2:{ split; [intros _; right; left; now split | intros _; now exists e]. }
    destruct (Request.data r) as [[str|d]|].
    + split; [intros _; right; right; now exists str | intros _; eexists; reflexivity].
    + split; [intros [e He]; discriminate He|].
      intros [H | [[_ H] | [str H]]]; [contradiction | contradiction | discriminate H].
    + split; [intros [e He]; discriminate He|].
      intros [H | [[_ H] | [str H]]]; [contradiction | contradiction | discriminate H].
  - cbn [bind].
    destruct (struct_pack_B_cases (services.request_id s))
      as [[Hrid ->] | [Hrid [e ->]]]; cbn [bind].
    2:{ split; [intros _; now left | intros _; now exists e]. }
    destruct (Request.data r) as [[str|d]|].
    + split; [intros _; right; right; now exists str | intros _; eexists; reflexivity].
    + split; [intros [e He]; discriminate He|].
      intros [H | [[H _] | [str H]]]; [contradiction | discriminate H | discriminate H].
    + split; [intros [e He]; discriminate He|].
      intros [H | [[H _] | [str H]]]; [contradiction | discriminate H | discriminate H].
Qed.
